(** * pyetf: the ETF database client and the catalog scraper

    A shallow embedding of [pyetf/_etfdb_scraper.py] and
    [pyetf/_etfdb_client.py].  Python values are an inductive type, raised
    exceptions are the [Raise] branch of a result type, BeautifulSoup
    documents are rose trees, and dictionaries are finite maps. *)

From Stdlib Require Import ZArith Ascii String List.
From stdpp Require Import base option list strings pretty gmap fin_maps.

Set Warnings "-register-all".
Local Open Scope Z_scope.
Local Open Scope string_scope.

(** ** Python exceptions and fallible computations *)

Module Py.

(** The exception classes that the two modules raise, catch or let through. *)
Inductive exn_class :=
  | ConnectionError | Timeout | ConnectTimeout | ReadTimeout
  | AttributeError | KeyError | TypeError | IndexError
  | ValueError | JSONDecodeError
  | InvalidETFException | Exception.

Inductive exn := Exn (c : exn_class) (msg : string).

Definition exn_class_eqb (c d : exn_class) : bool :=
  match c, d with
  | ConnectionError, ConnectionError | Timeout, Timeout
  | ConnectTimeout, ConnectTimeout | ReadTimeout, ReadTimeout
  | AttributeError, AttributeError | KeyError, KeyError
  | TypeError, TypeError | IndexError, IndexError
  | ValueError, ValueError | JSONDecodeError, JSONDecodeError
  | InvalidETFException, InvalidETFException | Exception, Exception => true
  | _, _ => false
  end.

(** [issubclass c d]: requests' [ConnectTimeout] derives from both
    [ConnectionError] and [Timeout], [ReadTimeout] from [Timeout],
    [JSONDecodeError] from [ValueError]; everything derives from
    [Exception]. *)
Definition issubclass (c d : exn_class) : bool :=
  exn_class_eqb c d ||
  match c, d with
  | _, Exception => true
  | ConnectTimeout, (ConnectionError | Timeout) => true
  | ReadTimeout, Timeout => true
  | JSONDecodeError, ValueError => true
  | _, _ => false
  end.

Definition class_of (e : exn) : exn_class := let 'Exn c _ := e in c.

(** Does an [except (d1, d2, ...)] clause catch [e]? *)
Definition caught_by (e : exn) (ds : list exn_class) : bool :=
  existsb (issubclass (class_of e)) ds.

Inductive result (A : Type) :=
  | Ok (a : A)
  | Raise (e : exn).
Arguments Ok {A} a.
Arguments Raise {A} e.

(** Sequencing: the first exception raised ends the computation. *)
Definition bind {A B} (m : result A) (k : A → result B) : result B :=
  match m with Ok a => k a | Raise e => Raise e end.

Declare Scope result_scope.
Delimit Scope result_scope with result.
Notation "x ← y ; z" := (bind y (fun x => z))
  (at level 20, y at level 100, z at level 200, only parsing) : result_scope.
Open Scope result_scope.

(** [try: m except ds: h] *)
Definition try_except {A} (m : result A) (ds : list exn_class)
    (h : exn → result A) : result A :=
  match m with
  | Ok a => Ok a
  | Raise e => if caught_by e ds then h e else Raise e
  end.

(** [for x in xs: ...] over a fallible body, left to right. *)
Fixpoint for_each {A S} (body : S → A → result S) (xs : list A) (s : S)
    : result S :=
  match xs with
  | [] => Ok s
  | x :: xs' => s' ← body s x; for_each body xs' s'
  end.

(** A list comprehension with a fallible element expression. *)
Fixpoint comprehension {A B} (f : A → result B) (xs : list A)
    : result (list B) :=
  match xs with
  | [] => Ok []
  | x :: xs' => y ← f x; ys ← comprehension f xs'; Ok (y :: ys)
  end.

(** *** Values: what [json.loads] produces, and what dictionaries hold *)

Inductive pyval :=
  | PNone
  | PBool (b : bool)
  | PInt (z : Z)
  | PStr (s : string)
  | PList (l : list pyval)
  | PDict (d : gmap string pyval).

(** [bool(v)], as used by [if not etfs]. *)
Definition truthy (v : pyval) : bool :=
  match v with
  | PNone => false
  | PBool b => b
  | PInt z => negb (Z.eqb z 0)
  | PStr s => negb (String.eqb s "")
  | PList l => match l with [] => false | _ => true end
  | PDict d => negb (bool_decide (d = ∅))
  end.

(** [v.get(key, default)]: of the values above only a dict has [get]. *)
Definition py_get (v : pyval) (key : string) (dflt : pyval)
    : result pyval :=
  match v with
  | PDict d => Ok (default dflt (d !! key))
  | _ => Raise (Exn AttributeError "object has no attribute 'get'")
  end.

(** [v[key]] for a string key. *)
Definition py_getitem (v : pyval) (key : string) : result pyval :=
  match v with
  | PDict d =>
      match d !! key with
      | Some x => Ok x
      | None => Raise (Exn KeyError key)
      end
  | PList _ | PStr _ =>
      Raise (Exn TypeError "indices must be integers or slices, not str")
  | _ => Raise (Exn TypeError "object is not subscriptable")
  end.

(** [s + v] for a [str] on the left. *)
Definition str_add (s : string) (v : pyval) : result string :=
  match v with
  | PStr t => Ok (s +:+ t)
  | _ => Raise (Exn TypeError "can only concatenate str to str")
  end.

Fixpoint chars (s : string) : list string :=
  match s with
  | EmptyString => []
  | String c r => String c EmptyString :: chars r
  end.

(** [iter(v)]: a list yields its items, a dict its keys, a str its
    characters; the other values are not iterable. *)
Definition py_iter (v : pyval) : result (list pyval) :=
  match v with
  | PList l => Ok l
  | PDict d => Ok (PStr <$> (map_to_list d).*1)
  | PStr s => Ok (PStr <$> chars s)
  | _ => Raise (Exn TypeError "object is not iterable")
  end.

(** *** [str] methods

    Strings are sequences of ASCII characters; case mapping and white space
    are those of the ASCII range. *)

Definition upper_char (c : ascii) : ascii :=
  let n := N_of_ascii c in
  if (97 <=? n)%N && (n <=? 122)%N then ascii_of_N (n - 32) else c.

Fixpoint upper (s : string) : string :=
  match s with
  | EmptyString => EmptyString
  | String c r => String (upper_char c) (upper r)
  end.

Definition isspace (c : ascii) : bool :=
  let n := N_of_ascii c in
  ((9 <=? n)%N && (n <=? 13)%N) || ((28 <=? n)%N && (n <=? 32)%N).

Fixpoint lstrip (s : string) : string :=
  match s with
  | EmptyString => EmptyString
  | String c r => if isspace c then lstrip r else s
  end.

Fixpoint rstrip (s : string) : string :=
  match s with
  | EmptyString => EmptyString
  | String c r =>
      match rstrip r with
      | EmptyString => if isspace c then EmptyString else String c EmptyString
      | r' => String c r'
      end
  end.

Definition strip (s : string) : string := rstrip (lstrip s).

Definition startswith (s pre : string) : bool := String.prefix pre s.

(** [replace_go old new skip s]: [skip] characters of a match just
    replaced are still to be passed over. *)
Fixpoint replace_go (old new : string) (skip : nat) (s : string) : string :=
  match s with
  | EmptyString => EmptyString
  | String c r =>
      match skip with
      | S k => replace_go old new k r
      | O =>
          if String.prefix old s
          then new +:+ replace_go old new (Nat.pred (String.length old)) r
          else String c (replace_go old new O r)
      end
  end.

Fixpoint interleave (sep s : string) : string :=
  match s with
  | EmptyString => sep
  | String c r => sep +:+ String c (interleave sep r)
  end.

(** [s.replace(old, new)]: every occurrence, left to right, without
    overlap; an empty [old] matches between any two characters. *)
Definition str_replace (s old new : string) : string :=
  match old with
  | EmptyString => interleave new s
  | _ => replace_go old new O s
  end.

(** [sub in s] *)
Fixpoint contains (sub s : string) : bool :=
  String.prefix sub s ||
  match s with
  | EmptyString => false
  | String _ r => contains sub r
  end.

(** [s.split()]: the maximal runs of characters that are not white space. *)
Fixpoint split_go (cur : string) (s : string) : list string :=
  match s with
  | EmptyString =>
      match cur with EmptyString => [] | _ => [String.rev cur] end
  | String c r =>
      if isspace c
      then match cur with
           | EmptyString => split_go EmptyString r
           | _ => String.rev cur :: split_go EmptyString r
           end
      else split_go (String c cur) r
  end.

Definition split (s : string) : list string := split_go EmptyString s.

(** [xs[i]] on a list. *)
Definition index {A} (xs : list A) (i : nat) : result A :=
  match xs !! i with
  | Some x => Ok x
  | None => Raise (Exn IndexError "list index out of range")
  end.

(** [dict(pairs)]: a later pair with the same key wins. *)
Definition dict_of_pairs {V} (pairs : list (string * V)) : gmap string V :=
  foldl (fun d kv => <[kv.1 := kv.2]> d) ∅ pairs.

(** [d.update(other)]: the keys of [other] win. *)
Definition update {V} (d other : gmap string V) : gmap string V := other ∪ d.

End Py.
Import Py.
Local Open Scope result_scope.

(** ** BeautifulSoup documents *)

Module Bs4.

Inductive node :=
  | NavigableString (s : string)
  | Tag (name : string) (attrs : gmap string string) (contents : list node).

Definition tag_name (n : node) : option string :=
  match n with Tag nm _ _ => Some nm | NavigableString _ => None end.

Definition tag_attrs (n : node) : gmap string string :=
  match n with Tag _ a _ => a | NavigableString _ => ∅ end.

(** Everything below [n], in document order. *)
Fixpoint descendants (n : node) : list node :=
  match n with
  | NavigableString _ => []
  | Tag _ _ cs => flat_map (fun c => c :: descendants c) cs
  end.

(** [n.text]: the strings below [n], concatenated. *)
Fixpoint get_text (n : node) : string :=
  match n with
  | NavigableString s => s
  | Tag _ _ cs => String.concat "" (map get_text cs)
  end.

(** What a search asks of one attribute: a string to be equal to, or a
    compiled pattern, here one that matches wherever [sub] occurs.  The
    value of [class] is a list of names: a filter holds of it when it holds
    of one of the names or of the names joined by single spaces. *)
Inductive attr_filter :=
  | Exactly (v : string)
  | Search (sub : string).

Definition filter_holds (f : attr_filter) (v : string) : bool :=
  match f with
  | Exactly w => String.eqb v w
  | Search sub => contains sub v
  end.

Definition attr_matches (key : string) (f : attr_filter) (n : node) : bool :=
  match tag_attrs n !! key with
  | None => false
  | Some v =>
      if String.eqb key "class"
      then existsb (filter_holds f) (split v)
           || filter_holds f (String.concat " " (split v))
      else filter_holds f v
  end.

Definition matches (name : string) (fs : list (string * attr_filter))
    (n : node) : bool :=
  match tag_name n with
  | Some nm => String.eqb nm name && forallb (fun kf => attr_matches kf.1 kf.2 n) fs
  | None => false
  end.

Definition find_all (n : node) (name : string)
    (fs : list (string * attr_filter)) : list node :=
  List.filter (matches name fs) (descendants n).

Definition find (n : node) (name : string)
    (fs : list (string * attr_filter)) : option node :=
  head (find_all n name fs).

(** The tags below [n] that are the [k]-th element child of their parent,
    in document order: what the selector [:nth-child(k)] picks. *)
Fixpoint nth_children (k : nat) (n : node) : list node :=
  match n with
  | NavigableString _ => []
  | Tag _ _ cs =>
      (fix go (i : nat) (cs : list node) : list node :=
         match cs with
         | [] => []
         | c :: rest =>
             match c with
             | NavigableString _ => go i rest
             | Tag _ _ _ =>
                 ((if Nat.eqb i k then [c] else [])
                  ++ nth_children k c ++ go (S i) rest)%list
             end
         end) 1%nat cs
  end.

Definition select_one_nth_child (n : node) (k : nat) : option node :=
  head (nth_children k n).

(** [n[key]] *)
Definition getitem (n : node) (key : string) : result string :=
  match tag_attrs n !! key with
  | Some v => Ok v
  | None => Raise (Exn KeyError key)
  end.

(** A method call or attribute access on the outcome of a search that may
    have been [None]. *)
Definition attr_of (o : option node) : result node :=
  match o with
  | Some n => Ok n
  | None => Raise (Exn AttributeError "'NoneType' object has no attribute")
  end.

(** A subscription of the outcome of a search that may have been [None]. *)
Definition subscript_of (o : option node) (key : string) : result string :=
  match o with
  | Some n => getitem n key
  | None => Raise (Exn TypeError "'NoneType' object is not subscriptable")
  end.

End Bs4.
Import Bs4.

(** ** The client base class

    [pyetf._client.BaseClient] supplies the base URL and the HTTP session.
    Its calls have effects on the outside world, which is threaded through
    as a state of type [World]. *)

Record Response := { json : result pyval }.

Record HttpResponse :=
  { status_code : Z; reason : string; text : string }.

Class BaseClient (World : Type) := {
  _base_url : string;
  _prepare_request_body : Z → Z → pyval;
  (* [None] stands for a returned object without a [json] attribute. *)
  post_request : pyval → World → result (option Response) * World;
  session_get : string → World → result HttpResponse * World;
}.

(** ** [_etfdb_client.py]

    The constructor, and the extractors that [_holdings] and [_basic_info]
    run. *)

(** [pyetf.utils], whose helpers the extractors call. *)
Class Utils := {
  _handle_spans : list node → result (option (string * pyval));
  handle_find_all_rows : list node → result (gmap string pyval);
  chunkify : list string → Z → result (list (list string));
  handle_tbody_thead : node → string → option string
                       → result (gmap string pyval);
  _handle_nth_child : node → Z → result string;
}.

(** The HTML parser behind [bs4.BeautifulSoup(text, "html.parser")] and the
    files of the installed package. *)
Class Host := {
  BeautifulSoup : string → node;
  package_root : string;
  json_load : string → result pyval;
}.

Record ETFDBClient := {
  _ticker : string;
  _ticker_url : string;
  _soup : node;
}.

Section ETFDBClient.
Context {World : Type} `{!BaseClient World} `{!Utils} `{!Host}.

Definition _load_available_etfs : result pyval :=
  json_load (package_root +:+ "/data/etfs/etfs_list.json").

Definition get_available_etfs_list : result (list pyval) :=
  data ← _load_available_etfs;
  etfs ← py_iter data;
  comprehension (fun etf => py_getitem etf "symbol") etfs.

(** [s in symbols] for a [str] on the left. *)
Definition str_in (s : string) (symbols : list pyval) : bool :=
  existsb (fun v => match v with PStr t => String.eqb s t | _ => false end)
    symbols.

(** The first statement of [__init__] after the base class has been
    initialised: the ticker and its URL, or [InvalidETFException]. *)
Definition resolve_ticker (ticker : string) : result (string * string) :=
  symbols ← get_available_etfs_list;
  if str_in (upper ticker) symbols
  then Ok (upper ticker, _base_url +:+ "/etf/" +:+ upper ticker)
  else Raise (Exn InvalidETFException
                (ticker +:+ " doesn't exist in ETF Database")).

Definition _prepare_url (ticker : string) : string :=
  _base_url +:+ "/etf/" +:+ ticker +:+ "/".

Definition _make_soup_request (ticker : string) (w : World)
    : result node * World :=
  let url := _prepare_url ticker in
  let '(r, w') := session_get url w in
  (response ← r;
   if negb (Z.eqb (status_code response) 200)
   then Raise (Exn Exception
                 ("response " +:+ pretty (status_code response) +:+ ": "
                  +:+ reason response))
   else Ok (BeautifulSoup (text response)),
   w').

Definition __init__ (ticker : string) (w : World)
    : result ETFDBClient * World :=
  match resolve_ticker ticker with
  | Raise e => (Raise e, w)
  | Ok (t, url) =>
      let '(r, w') := _make_soup_request t w in
      (soup ← r; Ok {| _ticker := t; _ticker_url := url; _soup := soup |},
       w')
  end.

Definition _profile_container (self : ETFDBClient)
    : result (gmap string pyval) :=
  profile_container ←
    attr_of (find (_soup self) "div" [("class", Exactly "profile-container")]);
  results ←
    for_each
      (fun results row =>
         record ← _handle_spans (find_all row "span" []);
         match record with
         | None => Ok results
         | Some kv => Ok (results ++ [kv])%list
         end)
      (find_all profile_container "div" [("class", Exactly "row")]) [];
  Ok (dict_of_pairs results).

Definition _trading_data (self : ETFDBClient) : result (gmap string pyval) :=
  block ←
    attr_of (find (_soup self) "div"
               [("class", Exactly "data-trading bar-charts-table")]);
  let trading_data := find_all block "li" [] in
  trading_dict ←
    for_each
      (fun (d : gmap string string) li =>
         k ← attr_of (select_one_nth_child li 1);
         v ← attr_of (select_one_nth_child li 2);
         Ok (<[strip (get_text k) := strip (get_text v)]> d))
      trading_data ∅;
  Ok (PStr <$> filter (fun kv : string * string => kv.2 ≠ "") trading_dict).

Definition _asset_categories (self : ETFDBClient)
    : result (gmap string pyval) :=
  body ← attr_of (find (_soup self) "div" [("id", Exactly "etf-ticker-body")]);
  let theme := find_all body "div" [("class", Exactly "ticker-assets")] in
  if match theme with [] => true | _ => false end
     || (length theme <? 1)%nat
  then Ok ∅
  else
    second ← index theme 1;
    handle_find_all_rows (find_all second "div" [("class", Exactly "row")]).

Definition _factset_classification (self : ETFDBClient)
    : result (gmap string pyval) :=
  factset ←
    attr_of (find (_soup self) "div"
               [("id", Exactly "factset-classification")]);
  handle_find_all_rows (find_all factset "tr" []).

Definition _number_of_holdings (self : ETFDBClient)
    : result (gmap string pyval) :=
  handle_tbody_thead (_soup self) "holdings-table" None.

(** [for name, (k, v) in zip(names, chunks): results[k][name] = v] *)
Definition valuation_step (results : gmap string (gmap string string))
    (item : string * list string)
    : result (gmap string (gmap string string)) :=
  match item.2 with
  | [k; v] => Ok (<[k := <[item.1 := v]> (default ∅ (results !! k))]> results)
  | _ => Raise (Exn ValueError "wrong number of values to unpack")
  end.

(** The pattern [h4 center*] of the source is found wherever [h4 cente]
    occurs. *)
Definition _valuation (self : ETFDBClient) : result (gmap string pyval) :=
  tab ←
    attr_of (find (_soup self) "div"
               [("id", Exactly "etf-ticker-valuation-dividend_tab")]);
  block ← attr_of (find tab "div" [("id", Exactly "valuation")]);
  let valuation := find_all block "div" [("class", Exactly "row")] in
  names ←
    index
      (map (fun div =>
              map (fun i => strip (get_text i))
                (find_all div "div" [("class", Search "h4 cente")]))
         valuation) 1;
  second ← index valuation 1;
  let values :=
    map get_text (find_all second "div" [("class", Exactly "text-center")]) in
  chunks ← chunkify values 2;
  results ← for_each valuation_step (zip names chunks) ∅;
  Ok ((fun inner : gmap string string => PDict (PStr <$> inner)) <$> results).

(** The [try] block of [_holdings]: one entry for each row of the table
    body. *)
Definition holding_entry (record : node) : result (gmap string pyval) :=
  let record_texts := find_all record "td" [] in
  holding_url ←
    try_except
      (href ← subscript_of (find record "a" []) "href";
       Ok (_base_url +:+ href))
      [TypeError] (fun _ => Ok "");
  let texts :=
    dict_of_pairs
      (zip ["Symbol"; "Holding"; "Share"]
         (map (fun x => PStr (get_text x)) record_texts)) in
  Ok (update texts {["Url" := PStr holding_url]}).

Definition holdings_list (self : ETFDBClient)
    : result (list (gmap string pyval)) :=
  try_except
    (section ←
       attr_of (find (_soup self) "div" [("id", Exactly "holding_section")]);
     tbody ← attr_of (find section "tbody" []);
     let holdings := find_all tbody "tr" [] in
     for_each
       (fun results record =>
          texts ← holding_entry record; Ok (results ++ [texts])%list)
       holdings [])
    [AttributeError] (fun _ => Ok []).

Definition _holdings (self : ETFDBClient) : result (gmap string pyval) :=
  results ← holdings_list self;
  statistics ← _number_of_holdings self;
  allocation ← _asset_categories self;
  Ok (<["Holdings" := PList (PDict <$> results)]> (
      <["Allocation" := PDict allocation]> (
      <["Statistics" := PDict statistics]> ∅))).

(** The [try] of the row loop of [_basic_info]: the text stored for a
    row whose second child is [value]. *)
Definition row_value_text (key : string) (value : option node)
    : result string :=
  try_except
    (cell ← attr_of value;
     href ← subscript_of (find cell "a" []) "href";
     if negb (String.eqb href "") && negb (String.eqb key "ETF Home Page")
     then Ok (_base_url +:+ href)
     else Ok href)
    [KeyError; TypeError]
    (fun _ => cell ← attr_of value; Ok (strip (get_text cell))).

Definition basic_info_row (basic_information : gmap string pyval)
    (row : node) : result (gmap string pyval) :=
  key ← _handle_nth_child row 1;
  let value := select_one_nth_child row 2 in
  value_text ← row_value_text key value;
  (* the string built by [replace] is dropped *)
  let _ :=
    if String.eqb key "ETF Home Page" && startswith value_text _base_url
    then str_replace value_text _base_url ""
    else value_text in
  Ok (update basic_information {[key := PStr value_text]}).

(** [_basic_info] up to the end of its row loop. *)
Definition ticker_body_basics (self : ETFDBClient)
    : result (gmap string pyval) :=
  body ← attr_of (find (_soup self) "div" [("id", Exactly "etf-ticker-body")]);
  let etf_ticker_body := find body "div" [("class", Exactly "row")] in
  let basic_information : gmap string pyval :=
    <["Url" := PStr (_ticker_url self)]> {["Symbol" := PStr (_ticker self)]} in
  top ← attr_of etf_ticker_body;
  for_each basic_info_row
    (find_all top "div" [("class", Exactly "row")]) basic_information.

(** [_basic_info] up to its last [update]. *)
Definition merged_sections (self : ETFDBClient)
    : result (gmap string pyval) :=
  basic_information ← ticker_body_basics self;
  section ← _profile_container self;
  let basic_information := update basic_information section in
  section ← _valuation self;
  let basic_information := update basic_information section in
  section ← _trading_data self;
  let basic_information := update basic_information section in
  section ← _asset_categories self;
  let basic_information := update basic_information section in
  section ← _factset_classification self;
  let basic_information := update basic_information section in
  Ok basic_information.

Definition _basic_info (self : ETFDBClient) : result (gmap string pyval) :=
  basic_information ← merged_sections self;
  if bool_decide (is_Some (basic_information !! "Analyst Report"))
  then Ok (delete "Analyst Report" basic_information)
  else Ok basic_information.

End ETFDBClient.

(** ** [_etfdb_scraper.py] *)

Section ETFListScraper.
Context {World : Type} `{!BaseClient World}.

Definition _parse_etf_record (obj : pyval) : result (gmap string pyval) :=
  symbol_obj ← py_get obj "symbol" (PDict ∅);
  symbol ← py_get symbol_obj "text" PNone;
  name_obj ← py_get obj "name" (PDict ∅);
  name ← py_get name_obj "text" PNone;
  symbol_obj' ← py_get obj "symbol" (PDict ∅);
  url ← py_get symbol_obj' "url" PNone;
  full_url ← str_add _base_url url;
  one_week_return ← py_get obj "one_week_return" PNone;
  ytd ← py_get obj "ytd" PNone;
  three_ytd ← py_get obj "three_ytd" PNone;
  five_ytd ← py_get obj "five_ytd" PNone;
  Ok (<["symbol" := symbol]> (
      <["name" := name]> (
      <["url" := PStr full_url]> (
      <["one_week_return" := one_week_return]> (
      <["one_year_return" := ytd]> (
      <["three_year_return" := three_ytd]> (
      <["five_year_return" := five_ytd]> ∅))))))).

(** [list(self._prepare_etfs_list(etfs))]: the generator is consumed at
    once by its only caller. *)
Definition _prepare_etfs_list (etfs : pyval)
    : result (list (gmap string pyval)) :=
  rows ← py_iter etfs; comprehension _parse_etf_record rows.

Definition response_json (r : option Response) : result pyval :=
  match r with
  | Some resp => json resp
  | None => Raise (Exn AttributeError "object has no attribute 'json'")
  end.

Definition _scrape_page (page page_size : Z) (w : World)
    : result pyval * World :=
  let request_body := _prepare_request_body page page_size in
  let '(reply, w') := post_request request_body w in
  let attempt :=
    r ← reply; body ← response_json r; py_getitem body "data" in
  (try_except
     (try_except attempt [ConnectionError; Timeout]
        (fun _ => Ok (PList [])))
     [AttributeError; KeyError] (fun _ => Ok (PList [])),
   w').

(** The generator [get_etfs]: its control state between two [next]
    calls, and what one [next] call gives. *)
Inductive gen_state :=
  | Running (page : Z)
  | Done.

Inductive gen_event :=
  | Yield (batch : list (gmap string pyval))
  | StopIteration
  | Raised (e : exn).

Definition get_etfs : gen_state := Running 1.

Definition next (page_size : Z) (st : gen_state) (w : World)
    : gen_event * gen_state * World :=
  match st with
  | Done => (StopIteration, Done, w)
  | Running page =>
      let '(r, w') := _scrape_page page page_size w in
      match r with
      | Raise e => (Raised e, Done, w')
      | Ok etfs =>
          if negb (truthy etfs) then (StopIteration, Done, w')
          else match _prepare_etfs_list etfs with
               | Ok batch => (Yield batch, Running (page + 1), w')
               | Raise e => (Raised e, Done, w')
               end
      end
  end.

(** [list(itertools.chain( *etfs_gen))], with a bound on the number of
    pages since the loop need not end. *)
Fixpoint drain (fuel : nat) (page_size : Z) (st : gen_state) (w : World)
    : option (result (list (gmap string pyval))) * World :=
  match fuel with
  | O => (None, w)
  | S fuel' =>
      match next page_size st w with
      | (StopIteration, _, w') => (Some (Ok []), w')
      | (Raised e, _, w') => (Some (Raise e), w')
      | (Yield batch, st', w') =>
          let '(rest, w'') := drain fuel' page_size st' w' in
          (fmap (M:=option) (fun r => rest' ← r; Ok (batch ++ rest')%list)
             rest, w'')
      end
  end.

Definition get_all_etfs (fuel : nat) (page_size : Z) (w : World) :=
  drain fuel page_size get_etfs w.

End ETFListScraper.

(** ** [_etfdb_client.py], the remaining extractors *)

(** [str_split_go sep skip cur s]: [cur] holds, last character first, the
    piece read so far; [skip] characters of a separator just found are still
    to be passed over. *)
Fixpoint str_split_go (sep : string) (skip : nat) (cur : string) (s : string)
    : list string :=
  match s with
  | EmptyString => [String.rev cur]
  | String c r =>
      match skip with
      | S k => str_split_go sep k cur r
      | O =>
          if String.prefix sep s
          then String.rev cur
               :: str_split_go sep (Nat.pred (String.length sep)) EmptyString r
          else str_split_go sep O (String c cur) r
      end
  end.

(** [s.split(sep)] for a separator that is not empty: the pieces between
    the occurrences of [sep], found left to right without overlap. *)
Definition str_split (s sep : string) : list string :=
  str_split_go sep O EmptyString s.

(** [dict(items)] for a list of lists: every item has to hold a key and a
    value, nothing more and nothing less. *)
Definition dict_of_lists (items : list (list string))
    : result (gmap string pyval) :=
  for_each
    (fun d item =>
       match item with
       | [k; v] => Ok (<[k := PStr v]> d)
       | _ =>
           Raise (Exn ValueError
                    "dictionary update sequence element has wrong length")
       end)
    items ∅.

Section ETFDBClient_more.
Context {World : Type} `{!BaseClient World} `{!Utils} `{!Host}.

Definition __repr__ (self : ETFDBClient) : string :=
  "ETFDBClient(ticker=" +:+ _ticker self +:+ ")".

Definition _size_locations (self : ETFDBClient)
    : result (gmap string pyval) :=
  handle_tbody_thead (_soup self) "size-table" None.

Definition _dividends (self : ETFDBClient) : result (gmap string pyval) :=
  handle_tbody_thead (_soup self) "dividend-table" (Some "div").

Definition _performance (self : ETFDBClient) : result (gmap string pyval) :=
  handle_tbody_thead (_soup self) "performance-collapse" (Some "div").

(** The lines of the items of one list of the technicals block. *)
Definition section_lines (section : node) : list (list string) :=
  map (fun s => str_split (strip (get_text s)) (String "010" EmptyString))
    (find_all section "li" []).

Definition _technicals (self : ETFDBClient) : result (gmap string pyval) :=
  block ←
    attr_of (find (_soup self) "div" [("id", Exactly "technicals-collapse")]);
  let sections := find_all block "ul" [("class", Exactly "list-unstyled")] in
  results ←
    for_each
      (fun results section =>
         try_except (Ok (results ++ section_lines section)%list)
           [KeyError; TypeError] (fun _ => Ok results))
      sections [];
  dict_of_lists results.

Definition four_newlines : string :=
  String "010" (String "010" (String "010" (String "010" EmptyString))).

Definition _volatility (self : ETFDBClient) : result (gmap string pyval) :=
  block ←
    attr_of (find (_soup self) "div" [("id", Exactly "technicals-collapse")]);
  let metrics :=
    map (fun x => str_split (strip (get_text x)) four_newlines)
      (find_all block "div" [("class", Search "row relative-metric")]) in
  dict_of_lists metrics.

End ETFDBClient_more.

(** ** Runs of the pagination driver *)

Section ETFListScraper_runs.
Context {World : Type} `{!BaseClient World}.

(** [serves page_size page w pages w']: from the world [w], the requests
    for [page], [page + 1], ... are answered with [pages], one after the
    other, and leave the world [w']. *)
Inductive serves (page_size : Z) : Z → World → list pyval → World → Prop :=
  | serves_nil page w : serves page_size page w [] w
  | serves_cons page w etfs w' rest w'' :
      _scrape_page page page_size w = (Ok etfs, w') →
      serves page_size (page + 1) w' rest w'' →
      serves page_size page w (etfs :: rest) w''.

End ETFListScraper_runs.

(** ** A scripted server, for running the scraper

    The world is the list of the pages requested so far; [script] gives the
    reply to the request for each page. *)

Definition request_page (body : pyval) : Z :=
  match body with
  | PDict d => match d !! "page" with Some (PInt p) => p | _ => 0 end
  | _ => 0
  end.

Definition scripted (script : Z → result (option Response))
    : BaseClient (list Z) :=
  {| _base_url := "https://etfdb.com";
     _prepare_request_body page page_size :=
       PDict (<["page" := PInt page]> {["per_page" := PInt page_size]});
     post_request body w := (script (request_page body), (w ++ [request_page body])%list);
     session_get url w :=
       (Ok {| status_code := 200; reason := "OK"; text := "" |}, w) |}.

Definition data_reply (rows : list pyval) : result (option Response) :=
  Ok (Some {| json := Ok (PDict {["data" := PList rows]}) |}).

Definition raw_row (symbol url name : string) : pyval :=
  PDict (<["symbol" := PDict (<["text" := PStr symbol]> {["url" := PStr url]})]>
         (<["name" := PDict {["text" := PStr name]}]>
          {["one_week_return" := PStr "0.5%"]})).

(** Page 1 holds two rows, page 2 none. *)
Definition two_pages (page : Z) : result (option Response) :=
  if Z.eqb page 1
  then data_reply [raw_row "SPY" "/etf/SPY/" "SPDR S&P 500";
                   raw_row "QQQ" "/etf/QQQ/" "Invesco QQQ"]
  else data_reply [].

(** Page 1 holds one row, which has a name but no [symbol]. *)
Definition nameless_page (page : Z) : result (option Response) :=
  data_reply [PDict {["name" := PDict {["text" := PStr "SPDR S&P 500"]}]}].

Definition timing_out (page : Z) : result (option Response) :=
  Raise (Exn ReadTimeout "read timed out").

(** ** A sample page, for running the extractors

    [pyetf/utils.py] is not among the sources.  The stand-ins below read a
    label and a value off the first two children of a row; they serve to
    run the extractors on the sample page, and the properties proved
    further down hold for every instance of [Utils]. *)

Definition label_value (row : node) : option (string * pyval) :=
  match select_one_nth_child row 1, select_one_nth_child row 2 with
  | Some k, Some v => Some (strip (get_text k), PStr (strip (get_text v)))
  | _, _ => None
  end.

Fixpoint chunks_of (fuel n : nat) (xs : list string) : list (list string) :=
  match fuel, xs with
  | O, _ | _, [] => []
  | S fuel', _ => take n xs :: chunks_of fuel' n (drop n xs)
  end.

Definition sample_utils : Utils :=
  {| _handle_spans spans :=
       match spans with
       | [k; v] => Ok (Some (strip (get_text k), PStr (strip (get_text v))))
       | _ => Ok None
       end;
     handle_find_all_rows rows := Ok (dict_of_pairs (omap label_value rows));
     chunkify values n := Ok (chunks_of (length values) (Z.to_nat n) values);
     handle_tbody_thead soup table_id tag := Ok ∅;
     _handle_nth_child row n :=
       match select_one_nth_child row (Z.to_nat n) with
       | Some t => Ok (strip (get_text t))
       | None =>
           Raise (Exn AttributeError "'NoneType' object has no attribute")
       end |}.

Definition el (name : string) (attrs : list (string * string))
    (contents : list node) : node :=
  Tag name (list_to_map attrs) contents.

Definition txt (s : string) : node := NavigableString s.

Definition pair_row (tag cell label : string) (value : list node) : node :=
  el tag [("class", "row")] [el cell [] [txt label]; el cell [] value].

Definition sample_ticker_body : node :=
  el "div" [("id", "etf-ticker-body")]
    [el "div" [("class", "row")]
       [pair_row "div" "span" "Issuer"
          [el "a" [("href", "/issuer/vanguard/")] [txt "Vanguard"]];
        pair_row "div" "span" "ETF Home Page"
          [el "a" [("href", "https://etfdb.com/home/VTI")] [txt "Home page"]];
        pair_row "div" "span" "Analyst Report" [txt "x"];
        pair_row "div" "span" "Category" [txt " Large Cap Blend "]];
     el "div" [("class", "ticker-assets")]
       [pair_row "div" "span" "Asset Class" [txt "Bond"]];
     el "div" [("class", "ticker-assets")]
       [pair_row "div" "span" "Asset Class" [txt "Equity"];
        pair_row "div" "span" "Category" [txt "Size and Style"]]].

Definition sample_valuation : node :=
  el "div" [("id", "etf-ticker-valuation-dividend_tab")]
    [el "div" [("id", "valuation")]
       [el "div" [("class", "row")] [txt "Valuation"];
        el "div" [("class", "row")]
          [el "div" [("class", "h4 center")] [txt "P/E Ratio"];
           el "div" [("class", "text-center")] [txt "ETF Wtd. Average"];
           el "div" [("class", "text-center")] [txt "20.1"]]]].

Definition sample_holdings_section : node :=
  el "div" [("id", "holding_section")]
    [el "table" []
       [el "tbody" []
          [el "tr" []
             [el "td" [] [el "a" [("href", "/stock/AAPL/")] [txt "AAPL"]];
              el "td" [] [txt "Apple Inc."];
              el "td" [] [txt "6.1%"]];
           el "tr" []
             [el "td" [] [txt "N/A"];
              el "td" [] [txt "Cash"];
              el "td" [] [txt "0.2%"]]]]].

Definition sample_page (holdings : list node) : node :=
  el "[document]" []
    [el "html" []
       ([sample_ticker_body;
         el "div" [("class", "profile-container")]
           [pair_row "div" "span" "Issuer" [txt "The Vanguard Group"];
            el "div" [("class", "row")] [el "span" [] [txt "Brand"]]];
         sample_valuation;
         el "div" [("class", "data-trading bar-charts-table")]
           [el "ul" []
              [el "li" [] [el "span" [] [txt "AUM"]; el "span" [] [txt "$10.0 M"]];
               el "li" [] [el "span" [] [txt "Shares"]; el "span" [] [txt " "]]]];
         el "div" [("id", "factset-classification")]
           [el "table" [] [pair_row "tr" "td" "Category" [txt "Total Market"]]]]
        ++ holdings)%list].

Definition sample_client (soup : node) : ETFDBClient :=
  {| _ticker := "VTI";
     _ticker_url := "https://etfdb.com/etf/VTI";
     _soup := soup |}.

(** A page on which [etf-ticker-body] holds one [ticker-assets] block. *)
Definition one_block_page : node :=
  el "[document]" []
    [el "div" [("id", "etf-ticker-body")]
       [el "div" [("class", "ticker-assets")]
          [pair_row "div" "span" "Asset Class" [txt "Equity"]]]].

Definition sample_host : Host :=
  {| BeautifulSoup html := sample_page [sample_holdings_section];
     package_root := "/site-packages/pyetf";
     json_load path :=
       Ok (PList [PDict {["symbol" := PStr "SPY"]};
                  PDict {["symbol" := PStr "VTI"]}]) |}.

Definition sample_transport : BaseClient (list Z) := scripted two_pages.

Definition sample_self : ETFDBClient :=
  sample_client (sample_page [sample_holdings_section]).

(** What the six merged extractors return on the sample page. *)
Definition sample_basics : gmap string pyval :=
  list_to_map
    [("Symbol", PStr "VTI");
     ("Url", PStr "https://etfdb.com/etf/VTI");
     ("Issuer", PStr "https://etfdb.com/issuer/vanguard/");
     ("ETF Home Page", PStr "https://etfdb.com/home/VTI");
     ("Analyst Report", PStr "x");
     ("Category", PStr "Large Cap Blend")].

Definition sample_profile_container : gmap string pyval :=
  {["Issuer" := PStr "The Vanguard Group"]}.

Definition sample_valuation_record : gmap string pyval :=
  {["ETF Wtd. Average" := PDict {["P/E Ratio" := PStr "20.1"]}]}.

Definition sample_trading : gmap string pyval :=
  {["AUM" := PStr "$10.0 M"]}.

Definition sample_assets : gmap string pyval :=
  list_to_map
    [("Asset Class", PStr "Equity"); ("Category", PStr "Size and Style")].

Definition sample_classification : gmap string pyval :=
  {["Category" := PStr "Total Market"]}.

(** The profile that [_basic_info] returns on the sample page. *)
Definition sample_info : gmap string pyval :=
  list_to_map
    [("Symbol", PStr "VTI");
     ("Url", PStr "https://etfdb.com/etf/VTI");
     ("Issuer", PStr "The Vanguard Group");
     ("ETF Home Page", PStr "https://etfdb.com/home/VTI");
     ("Category", PStr "Total Market");
     ("Asset Class", PStr "Equity");
     ("AUM", PStr "$10.0 M");
     ("ETF Wtd. Average", PDict {["P/E Ratio" := PStr "20.1"]})].

Definition home_page_row : node :=
  pair_row "div" "span" "ETF Home Page"
    [el "a" [("href", "https://etfdb.com/home/VTI")] [txt "Home page"]].

Definition cash_row : node :=
  el "tr" []
    [el "td" [] [txt "N/A"]; el "td" [] [txt "Cash"]; el "td" [] [txt "0.2%"]].

(** ** Further sample data *)

(** The record that a row made by [raw_row] is normalised into. *)
Definition normalised_row (symbol url name : string) : gmap string pyval :=
  list_to_map
    [("symbol", PStr symbol);
     ("name", PStr name);
     ("url", PStr ("https://etfdb.com" +:+ url));
     ("one_week_return", PStr "0.5%");
     ("one_year_return", PNone);
     ("three_year_return", PNone);
     ("five_year_return", PNone)].

Definition first_page : list pyval :=
  [raw_row "SPY" "/etf/SPY/" "SPDR S&P 500";
   raw_row "QQQ" "/etf/QQQ/" "Invesco QQQ"].

(** A server whose replies are not JSON. *)
Definition not_json (page : Z) : result (option Response) :=
  Ok (Some {| json := Raise (Exn JSONDecodeError "Expecting value") |}).

Definition newline : string := String "010" EmptyString.

(** A technicals block: two lists of indicators and one metric row. *)
Definition sample_technicals (items : list node) : node :=
  el "[document]" []
    [el "div" [("id", "technicals-collapse")]
       [el "ul" [("class", "list-unstyled")]
          [el "li" [] [txt ("20 Day MA" +:+ newline +:+ "$227.10")]];
        el "ul" [("class", "list-unstyled")] items;
        el "div" [("class", "row relative-metric")]
          [txt ("5 Day Volatility" +:+ four_newlines +:+ "12.5%")];
        el "div" [("class", "row relative-metric")]
          [txt "20 Day Volatility"]]].

Definition rsi_item : node :=
  el "li" [] [txt (" RSI 10 Day" +:+ newline +:+ "61 ")].

Definition bare_item : node := el "li" [] [txt "Support Level 1"].

(** A valuation block with a single row. *)
Definition one_row_valuation : node :=
  el "[document]" []
    [el "div" [("id", "etf-ticker-valuation-dividend_tab")]
       [el "div" [("id", "valuation")]
          [el "div" [("class", "row")] [txt "Valuation"]]]].

(** A holdings table with a row whose link has no [href]. *)
Definition anchor_row : node :=
  el "tr" []
    [el "td" [] [el "a" [("name", "top")] [txt "MSFT"]];
     el "td" [] [txt "Microsoft"];
     el "td" [] [txt "5.4%"]].

Definition anchor_page : node :=
  el "[document]" []
    [el "div" [("id", "holding_section")]
       [el "table" [] [el "tbody" [] [cash_row; anchor_row]]]].

(** The sample page with one [ticker-assets] block instead of two. *)
Definition one_block_body : node :=
  el "div" [("id", "etf-ticker-body")]
    [el "div" [("class", "row")]
       [pair_row "div" "span" "Category" [txt "Large Cap Blend"]];
     el "div" [("class", "ticker-assets")]
       [pair_row "div" "span" "Asset Class" [txt "Equity"]]].

Definition one_block_profile_page : node :=
  el "[document]" []
    [one_block_body;
     el "div" [("class", "profile-container")]
       [pair_row "div" "span" "Issuer" [txt "The Vanguard Group"]];
     sample_valuation;
     el "div" [("class", "data-trading bar-charts-table")]
       [el "ul" []
          [el "li" [] [el "span" [] [txt "AUM"]; el "span" [] [txt "$10.0 M"]]]]].

Definition category_row : node :=
  pair_row "div" "span" "Category" [txt " Large Cap Blend "].

Definition issuer_row : node :=
  pair_row "div" "span" "Issuer"
    [el "a" [("href", "/issuer/vanguard/")] [txt "Vanguard"]].

(** * Properties *)

(** ** The catalog scraper *)

Section ETFListScraper_properties.
Context {World : Type} `{!BaseClient World}.

Lemma py_get_dict (d : gmap string pyval) key dflt :
  py_get (PDict d) key dflt = Ok (default dflt (d !! key)).
Proof. reflexivity. Qed.

(** A row that is an object whose [symbol], if any, is an object without
    [url] cannot be normalised: the base URL is concatenated with [None]. *)
Lemma _parse_etf_record_no_url (d : gmap string pyval) :
  (d !! "symbol" = None ∨
   ∃ s, d !! "symbol" = Some (PDict s) ∧ s !! "url" = None) →
  (d !! "name" = None ∨ ∃ n, d !! "name" = Some (PDict n)) →
  _parse_etf_record (PDict d)
  = Raise (Exn TypeError "can only concatenate str to str").
Proof.
  intros Hsym Hname. unfold _parse_etf_record.
  rewrite !py_get_dict.
  assert (∃ s, default (PDict ∅) (d !! "symbol") = PDict s ∧ s !! "url" = None)
    as (s & -> & Hurl).
  { destruct Hsym as [-> | (s & -> & Hs)]; simpl; eauto. }
  assert (∃ n, default (PDict ∅) (d !! "name") = PDict n) as (n & ->).
  { destruct Hname as [-> | (n & ->)]; simpl; eauto. }
  simpl. rewrite Hurl. reflexivity.
Qed.

(** With [symbol.url] in place every other field may be missing: the
    record has [None] for it. *)
Lemma _parse_etf_record_with_url (d s : gmap string pyval) (u : string) :
  d !! "symbol" = Some (PDict s) →
  s !! "url" = Some (PStr u) →
  (d !! "name" = None ∨ ∃ n, d !! "name" = Some (PDict n)) →
  ∃ record,
    _parse_etf_record (PDict d) = Ok record ∧
    record !! "url" = Some (PStr (_base_url +:+ u)) ∧
    record !! "symbol" = Some (default PNone (s !! "text")) ∧
    record !! "one_week_return"
      = Some (default PNone (d !! "one_week_return")) ∧
    record !! "one_year_return" = Some (default PNone (d !! "ytd")) ∧
    record !! "three_year_return" = Some (default PNone (d !! "three_ytd")) ∧
    record !! "five_year_return" = Some (default PNone (d !! "five_ytd")).
Proof.
  intros Hsym Hurl Hname. unfold _parse_etf_record.
  rewrite !py_get_dict, Hsym. simpl. rewrite Hurl. simpl.
  assert (∃ n, default (PDict ∅) (d !! "name") = PDict n) as (n & ->).
  { destruct Hname as [-> | (n & ->)]; simpl; eauto. }
  simpl. eexists. split; [reflexivity |].
  repeat split; by simplify_map_eq.
Qed.

(** C2 (the code departs from the claim).  A raw row that has a name but no
    [symbol], hence no [symbol.url], is not normalised into a record with
    absent values: [_parse_etf_record] raises [TypeError]. *)
Theorem _parse_etf_record_missing_symbol_raises :
  _parse_etf_record
    (PDict {["name" := PDict {["text" := PStr "SPDR S&P 500"]}]})
  = Raise (Exn TypeError "can only concatenate str to str").
Proof.
  apply _parse_etf_record_no_url.
  - left. by simplify_map_eq.
  - right. eexists. by simplify_map_eq.
Qed.

Lemma try_except_ok {A} (a : A) ds h : try_except (Ok a) ds h = Ok a.
Proof. reflexivity. Qed.

Lemma try_except_caught {A} e ds (h : exn → result A) :
  caught_by e ds = true → try_except (Raise e) ds h = h e.
Proof. intros H. unfold try_except. by rewrite H. Qed.

Lemma try_except_uncaught {A} e ds (h : exn → result A) :
  caught_by e ds = false → try_except (Raise e) ds h = Raise e.
Proof. intros H. unfold try_except. by rewrite H. Qed.

(** What [_scrape_page] makes of the outcome of [post_request]: an
    exception of one of the four classes it lists becomes the empty list. *)
Lemma _scrape_page_unfold page page_size w reply w' :
  post_request (_prepare_request_body page page_size) w = (reply, w') →
  _scrape_page page page_size w
  = (match (r ← reply; body ← response_json r; py_getitem body "data") with
     | Ok v => Ok v
     | Raise e =>
         if caught_by e [ConnectionError; Timeout; AttributeError; KeyError]
         then Ok (PList []) else Raise e
     end, w').
Proof.
  intros Hpost. unfold _scrape_page. rewrite Hpost. f_equal.
  destruct (r ← reply; body ← response_json r; py_getitem body "data")
    as [v | [c msg]]; [reflexivity |].
  destruct c; reflexivity.
Qed.

(** C5.  Whatever request [_scrape_page] posts: a connection or timeout
    error raised by the transport, a reply without a [json] attribute, an
    attribute or key error raised while decoding, and a decoded object
    without the key [data] all give the empty list, nothing is raised; a
    decoded object with the key [data] gives exactly the value stored
    there.  The world is the one left by the single request. *)
Theorem _scrape_page_absorbs_failures page page_size w reply w' :
  post_request (_prepare_request_body page page_size) w = (reply, w') →
  (∀ e, reply = Raise e → caught_by e [ConnectionError; Timeout] = true →
        _scrape_page page page_size w = (Ok (PList []), w')) ∧
  (reply = Ok None → _scrape_page page page_size w = (Ok (PList []), w')) ∧
  (∀ resp e, reply = Ok (Some resp) → json resp = Raise e →
        caught_by e [AttributeError; KeyError] = true →
        _scrape_page page page_size w = (Ok (PList []), w')) ∧
  (∀ resp d, reply = Ok (Some resp) → json resp = Ok (PDict d) →
        d !! "data" = None →
        _scrape_page page page_size w = (Ok (PList []), w')) ∧
  (∀ resp d data, reply = Ok (Some resp) → json resp = Ok (PDict d) →
        d !! "data" = Some data →
        _scrape_page page page_size w = (Ok data, w')).
Proof.
  intros Hpost. rewrite (_scrape_page_unfold _ _ _ _ _ Hpost).
  repeat split.
  - intros [c msg] -> Hc. simpl. destruct c; try discriminate; reflexivity.
  - intros ->. reflexivity.
  - intros resp [c msg] -> Hj Hc. simpl. rewrite Hj. simpl.
    destruct c; try discriminate; reflexivity.
  - intros resp d -> Hj Hd. simpl. rewrite Hj. simpl. by rewrite Hd.
  - intros resp d data -> Hj Hd. simpl. rewrite Hj. simpl. by rewrite Hd.
Qed.

(** A decoded body that is not an object is outside what [_scrape_page]
    absorbs: the [TypeError] of the subscription is raised to the caller. *)
Lemma _scrape_page_body_not_object page page_size w resp rows w' :
  post_request (_prepare_request_body page page_size) w
  = (Ok (Some resp), w') →
  json resp = Ok (PList rows) →
  _scrape_page page page_size w
  = (Raise (Exn TypeError "indices must be integers or slices, not str"), w').
Proof.
  intros Hpost Hj. rewrite (_scrape_page_unfold _ _ _ _ _ Hpost).
  simpl. by rewrite Hj.
Qed.

Lemma next_Done page_size w : next page_size Done w = (StopIteration, Done, w).
Proof. reflexivity. Qed.

(** An empty page ends the sequence. *)
Lemma next_empty_page page_size page w etfs w' :
  _scrape_page page page_size w = (Ok etfs, w') →
  truthy etfs = false →
  next page_size (Running page) w = (StopIteration, Done, w').
Proof. intros Hs Ht. simpl. by rewrite Hs, Ht. Qed.

(** A page whose rows all normalise is produced, and the next request is
    for the following page. *)
Lemma next_yields_page page_size page w etfs w' batch :
  _scrape_page page page_size w = (Ok etfs, w') →
  truthy etfs = true →
  _prepare_etfs_list etfs = Ok batch →
  next page_size (Running page) w = (Yield batch, Running (page + 1), w').
Proof. intros Hs Ht Hb. simpl. by rewrite Hs, Ht, Hb. Qed.

(** A page with a row that does not normalise is not produced: the
    exception leaves the generator, which is then finished. *)
Lemma next_raises page_size page w etfs w' e :
  _scrape_page page page_size w = (Ok etfs, w') →
  truthy etfs = true →
  _prepare_etfs_list etfs = Raise e →
  next page_size (Running page) w = (Raised e, Done, w').
Proof. intros Hs Ht Hb. simpl. by rewrite Hs, Ht, Hb. Qed.

(** C3 (the code departs from the claim).  When the first page fetched is
    not empty but holds a row without [symbol.url], the driver does not
    produce a normalised page and does not go on to page 2: the first
    [next] raises the [TypeError] of [_parse_etf_record] and the generator
    is finished, so that a further [next] fetches nothing. *)
Theorem get_etfs_raises_on_row_without_url page_size w w' (d : gmap string pyval) :
  _scrape_page 1 page_size w = (Ok (PList [PDict d]), w') →
  d !! "symbol" = None →
  d !! "name" = None ∨ (∃ n, d !! "name" = Some (PDict n)) →
  next page_size get_etfs w
  = (Raised (Exn TypeError "can only concatenate str to str"), Done, w') ∧
  next page_size Done w' = (StopIteration, Done, w').
Proof.
  intros Hs Hsym Hname. split; [| reflexivity].
  apply next_raises with (etfs := PList [PDict d]); [done | done |].
  unfold _prepare_etfs_list. simpl.
  rewrite _parse_etf_record_no_url; auto.
Qed.

End ETFListScraper_properties.

(** A server with two rows on page 1 and none on page 2: page 1 is
    produced, the request for page 2 ends the sequence, and the flattened
    list holds the two records. *)
Example get_all_etfs_two_pages :
  let '(out, requested) := @get_all_etfs _ (scripted two_pages) 3 250 [] in
  (fmap (M:=option)
     (fun r => match r with
               | Ok records => map (fun d => d !! "symbol") records
               | Raise _ => []
               end) out,
   requested)
  = (Some [Some (PStr "SPY"); Some (PStr "QQQ")], [1; 2]).
Proof. vm_compute. reflexivity. Qed.

(** ** The document parser *)

Lemma bind_Ok_inv {A B} (m : result A) (k : A → result B) (b : B) :
  bind m k = Ok b → ∃ a, m = Ok a ∧ k a = Ok b.
Proof. destruct m as [a | e]; simpl; [eauto | discriminate]. Qed.

Ltac inv_bind H :=
  let a := fresh "a" in
  let Ha := fresh "Ha" in
  let H' := fresh "Hk" in
  destruct (bind_Ok_inv _ _ _ H) as (a & Ha & H'); clear H; rename H' into H.

(** A loop keeps what each round of its body keeps. *)
Lemma for_each_invariant {A S} (P : S → Prop) (body : S → A → result S) xs :
  (∀ s x s', body s x = Ok s' → P s → P s') →
  ∀ s s', for_each body xs s = Ok s' → P s → P s'.
Proof.
  intros Hbody. induction xs as [| x xs IH]; intros s s' Hrun Hs; simpl in Hrun.
  - by simplify_eq.
  - inv_bind Hrun. eauto.
Qed.

(** A loop that appends one item per round. *)
Lemma for_each_append {A B} (f : A → result B) xs (acc out : list B) :
  for_each (fun results x => y ← f x; Ok (results ++ [y])%list) xs acc = Ok out →
  ∃ ys, out = (acc ++ ys)%list ∧ Forall2 (fun x y => f x = Ok y) xs ys.
Proof.
  revert acc. induction xs as [| x xs IH]; intros acc Hrun; simpl in Hrun.
  - simplify_eq. exists []. by rewrite app_nil_r.
  - inv_bind Hrun. inv_bind Ha. simplify_eq.
    destruct (IH _ Hrun) as (ys & -> & Hys).
    exists (a0 :: ys). rewrite <- app_assoc. split; [done | by constructor].
Qed.

Lemma lookup_update {V} (d other : gmap string V) key :
  update d other !! key
  = match other !! key with Some v => Some v | None => d !! key end.
Proof.
  unfold update. destruct (other !! key) as [v |] eqn:Ho.
  - by apply lookup_union_Some_l.
  - by rewrite lookup_union_r.
Qed.

Lemma lookup_update_is_Some {V} (d other : gmap string V) key :
  is_Some (d !! key) → is_Some (update d other !! key).
Proof. rewrite lookup_update. destruct (other !! key); eauto. Qed.

Lemma update_singleton {V} (d : gmap string V) key v :
  update d {[key := v]} = <[key := v]> d.
Proof. unfold update. by rewrite insert_union_singleton_l. Qed.

(** Sections without [key] leave its value as it was. *)
Lemma lookup_foldl_update_None {V} (sections : list (gmap string V)) key :
  (∀ s, s ∈ sections → s !! key = None) →
  ∀ start, foldl update start sections !! key = start !! key.
Proof.
  induction sections as [| s sections IH]; intros Hnone start; simpl; [done |].
  rewrite IH by (intros; apply Hnone; by right).
  rewrite lookup_update, (Hnone s); [done | by left].
Qed.

(** The value that the sections merged in order have for [key] is that of
    the last section holding it. *)
Lemma lookup_foldl_update_last {V} (sections : list (gmap string V)) key :
  ∀ start j later v,
    sections !! j = Some later →
    later !! key = Some v →
    (∀ m s, (j < m)%nat → sections !! m = Some s → s !! key = None) →
    foldl update start sections !! key = Some v.
Proof.
  induction sections as [| s sections IH]; intros start j later v Hj Hv Hafter.
  - done.
  - destruct j as [| j]; simpl in *.
    + simplify_eq. rewrite lookup_foldl_update_None.
      * by rewrite lookup_update, Hv.
      * intros s [m Hm]%list_elem_of_lookup. apply (Hafter (S m)); [lia | done].
    + apply (IH _ j later); [done | done |].
      intros m s' Hlt Hm. apply (Hafter (S m)); [lia | done].
Qed.

Section ETFDBClient_properties.
Context {World : Type} `{!BaseClient World} `{!Utils} `{!Host}.

(** [merged_sections] returns when its six extractors do, with their
    records merged in the order of the calls. *)
Lemma merged_sections_Ok self basics profile valuation trading assets
    classification :
  ticker_body_basics self = Ok basics →
  _profile_container self = Ok profile →
  _valuation self = Ok valuation →
  _trading_data self = Ok trading →
  _asset_categories self = Ok assets →
  _factset_classification self = Ok classification →
  merged_sections self
  = Ok (foldl update basics
          [profile; valuation; trading; assets; classification]).
Proof.
  intros Hb Hp Hv Ht Ha Hc. unfold merged_sections.
  rewrite Hb, Hp, Hv, Ht, Ha, Hc. reflexivity.
Qed.

Lemma merged_sections_inv self merged :
  merged_sections self = Ok merged →
  ∃ basics profile valuation trading assets classification,
    ticker_body_basics self = Ok basics ∧
    _profile_container self = Ok profile ∧
    _valuation self = Ok valuation ∧
    _trading_data self = Ok trading ∧
    _asset_categories self = Ok assets ∧
    _factset_classification self = Ok classification ∧
    merged = foldl update basics
               [profile; valuation; trading; assets; classification].
Proof.
  intros Hrun. unfold merged_sections in Hrun.
  do 6 inv_bind Hrun. simplify_eq. repeat eexists; eauto.
Qed.

Lemma _basic_info_pop self merged :
  merged_sections self = Ok merged →
  _basic_info self = Ok (delete "Analyst Report" merged).
Proof.
  intros Hm. unfold _basic_info. rewrite Hm. simpl. case_bool_decide as Hin.
  - done.
  - f_equal. symmetry. apply delete_id.
    by apply eq_None_not_Some.
Qed.

(** C1.  Let the six extractors return their records, listed in the order
    in which [_basic_info] merges them: ticker-body basics, profile
    container, valuation, trading data, asset categories, classification.
    For two of them that both hold [key], the later one being the last of
    the six to hold it, the merged map has the value of the later one; and
    so has the profile returned, unless the key is the one removed
    afterwards. *)
Theorem merge_later_extractor_wins self basics profile valuation trading
    assets classification (i j : nat) earlier later key v_earlier v_later :
  ticker_body_basics self = Ok basics →
  _profile_container self = Ok profile →
  _valuation self = Ok valuation →
  _trading_data self = Ok trading →
  _asset_categories self = Ok assets →
  _factset_classification self = Ok classification →
  let sections :=
    [basics; profile; valuation; trading; assets; classification] in
  (i < j)%nat →
  sections !! i = Some earlier →
  sections !! j = Some later →
  earlier !! key = Some v_earlier →
  later !! key = Some v_later →
  (∀ m s, (j < m)%nat → sections !! m = Some s → s !! key = None) →
  ∃ merged,
    merged_sections self = Ok merged ∧
    merged !! key = Some v_later ∧
    (key ≠ "Analyst Report" →
     ∃ info, _basic_info self = Ok info ∧ info !! key = Some v_later).
Proof.
  intros Hb Hp Hv Ht Ha Hc sections Hij Hi Hj Hearlier Hlater Hafter.
  pose proof (merged_sections_Ok _ _ _ _ _ _ _ Hb Hp Hv Ht Ha Hc) as Hm.
  assert (foldl update basics
            [profile; valuation; trading; assets; classification] !! key
          = Some v_later) as Hkey.
  { destruct j as [| j]; [lia |]. simpl in Hj.
    apply (lookup_foldl_update_last _ key basics j later); [done | done |].
    intros m s Hlt Hs. apply (Hafter (S m)); [lia | done]. }
  eexists. split; [exact Hm |]. split; [exact Hkey |].
  intros Hne. eexists. split; [by apply _basic_info_pop |].
  by rewrite lookup_delete_ne.
Qed.

Lemma basic_info_row_keeps key info row info' :
  basic_info_row info row = Ok info' →
  is_Some (info !! key) → is_Some (info' !! key).
Proof.
  intros Hrun. unfold basic_info_row in Hrun. do 2 inv_bind Hrun. simplify_eq.
  apply lookup_update_is_Some.
Qed.

Lemma ticker_body_basics_keys self basics :
  ticker_body_basics self = Ok basics →
  is_Some (basics !! "Symbol") ∧ is_Some (basics !! "Url").
Proof.
  intros Hrun. unfold ticker_body_basics in Hrun. do 2 inv_bind Hrun.
  split.
  - eapply (for_each_invariant (fun d => is_Some (d !! "Symbol"))); [| exact Hrun |].
    + intros s x s' Hrow. by apply (basic_info_row_keeps _ _ x).
    + by simplify_map_eq.
  - eapply (for_each_invariant (fun d => is_Some (d !! "Url"))); [| exact Hrun |].
    + intros s x s' Hrow. by apply (basic_info_row_keeps _ _ x).
    + by simplify_map_eq.
Qed.

Lemma foldl_update_keeps {V} (sections : list (gmap string V)) key :
  ∀ start, is_Some (start !! key) →
           is_Some (foldl update start sections !! key).
Proof.
  induction sections as [| s sections IH]; intros start Hs; simpl; [done |].
  by apply IH, lookup_update_is_Some.
Qed.

(** C7.  A profile returned by [_basic_info] has the keys [Symbol] and
    [Url] and has not the key [Analyst Report], whatever the rows of the
    ticker body and the five merged sections held. *)
Theorem _basic_info_keys self info :
  _basic_info self = Ok info →
  is_Some (info !! "Symbol") ∧ is_Some (info !! "Url") ∧
  info !! "Analyst Report" = None.
Proof.
  intros Hrun. unfold _basic_info in Hrun. inv_bind Hrun.
  pose proof (_basic_info_pop _ _ Ha) as Hpop.
  assert (info = delete "Analyst Report" a) as ->.
  { unfold _basic_info in Hpop. rewrite Ha in Hpop. simpl in Hpop. congruence. }
  apply merged_sections_inv in Ha
    as (basics & p & v & t & a' & c & Hb & _ & _ & _ & _ & _ & ->).
  destruct (ticker_body_basics_keys _ _ Hb) as [Hsym Hurl].
  split; [| split].
  - rewrite lookup_delete_ne by done. by apply foldl_update_keeps.
  - rewrite lookup_delete_ne by done. by apply foldl_update_keeps.
  - apply lookup_delete_eq.
Qed.

(** C8.  A row whose key is exactly [ETF Home Page] and whose text begins
    with the base URL is stored with that text as it is: the string built by
    [replace] is not used.  When the cell holds a link with an [href], that
    text is the [href] as written in the page. *)
Theorem home_page_value_stored_unchanged info row value_text :
  _handle_nth_child row 1 = Ok "ETF Home Page" →
  row_value_text "ETF Home Page" (select_one_nth_child row 2) = Ok value_text →
  startswith value_text _base_url = true →
  basic_info_row info row = Ok (<["ETF Home Page" := PStr value_text]> info) ∧
  (∀ cell a href,
     select_one_nth_child row 2 = Some cell →
     find cell "a" [] = Some a →
     tag_attrs a !! "href" = Some href →
     value_text = href).
Proof.
  intros Hkey Htext Hstarts. split.
  - unfold basic_info_row. rewrite Hkey. simpl. rewrite Htext. simpl.
    by rewrite update_singleton.
  - intros cell a href Hcell Ha Hhref.
    rewrite Hcell in Htext. unfold row_value_text in Htext. simpl in Htext.
    rewrite Ha in Htext. simpl in Htext. unfold getitem in Htext.
    rewrite Hhref in Htext. simpl in Htext.
    rewrite andb_false_r in Htext. simpl in Htext. congruence.
Qed.

(** C9.  The entry made of a row of the holdings table that holds no link
    has the empty string under [Url]; and every entry made of a row, and so
    every entry of the list returned, has a string under [Url]. *)
Theorem holding_entry_url_is_string record :
  (find record "a" [] = None →
   ∃ entry, holding_entry record = Ok entry ∧
            entry !! "Url" = Some (PStr "")) ∧
  (∀ entry, holding_entry record = Ok entry →
            ∃ url, entry !! "Url" = Some (PStr url)) ∧
  (∀ self entries, holdings_list self = Ok entries →
     Forall (fun entry => ∃ url, entry !! "Url" = Some (PStr url)) entries).
Proof.
  assert (∀ r entry, holding_entry r = Ok entry →
                     ∃ url, entry !! "Url" = Some (PStr url)) as Hentry.
  { intros r entry Hrun. unfold holding_entry in Hrun. inv_bind Hrun.
    simplify_eq. exists a. by rewrite lookup_update, lookup_singleton_eq. }
  split; [| split].
  - intros Hnone. unfold holding_entry. rewrite Hnone. simpl.
    eexists. split; [reflexivity |].
    by rewrite lookup_update, lookup_singleton_eq.
  - apply Hentry.
  - intros self entries Hrun. unfold holdings_list in Hrun.
    match type of Hrun with
    | try_except ?m _ _ = _ => destruct m as [out | e] eqn:Hm
    end; simpl in Hrun.
    + simplify_eq. do 2 inv_bind Hm.
      apply for_each_append in Hm as (ys & -> & Hys). simpl.
      induction Hys; constructor; eauto.
    + destruct (issubclass _ _ || _); simplify_eq. constructor.
Qed.

(** C10.  When [etf-ticker-body] holds exactly one [ticker-assets] block,
    [_asset_categories] does not return the empty map: the guard lets a
    list of one block through and the access to the second block raises
    [IndexError]. *)
Theorem _asset_categories_one_block_raises self body block :
  find (_soup self) "div" [("id", Exactly "etf-ticker-body")] = Some body →
  find_all body "div" [("class", Exactly "ticker-assets")] = [block] →
  _asset_categories self = Raise (Exn IndexError "list index out of range").
Proof.
  intros Hbody Hblocks. unfold _asset_categories.
  rewrite Hbody. simpl. rewrite Hblocks. reflexivity.
Qed.

(** C6.  On a document without the holdings section, or whose holdings
    section has no table body, the list of holdings is empty and nothing
    is raised while it is extracted; [_holdings] then stores the empty
    list under [Holdings], next to what the statistics and the allocation
    extractors return. *)
Theorem holdings_list_empty_when_absent self :
  (find (_soup self) "div" [("id", Exactly "holding_section")] = None ∨
   ∃ section,
     find (_soup self) "div" [("id", Exactly "holding_section")]
     = Some section ∧
     find section "tbody" [] = None) →
  holdings_list self = Ok [] ∧
  _holdings self
  = (statistics ← _number_of_holdings self;
     allocation ← _asset_categories self;
     Ok (<["Holdings" := PList []]> (
         <["Allocation" := PDict allocation]> (
         <["Statistics" := PDict statistics]> ∅)))).
Proof.
  intros Habsent.
  assert (holdings_list self = Ok []) as Hlist.
  { unfold holdings_list.
    destruct Habsent as [-> | (section & -> & Htbody)]; simpl.
    - reflexivity.
    - rewrite Htbody. reflexivity. }
  split; [exact Hlist |].
  unfold _holdings. rewrite Hlist. reflexivity.
Qed.

Lemma str_in_elem_of (s : string) (symbols : list pyval) :
  str_in s symbols = true ↔ PStr s ∈ symbols.
Proof.
  unfold str_in. rewrite existsb_exists. split.
  - intros (v & Hin & Hv). destruct v; try discriminate.
    apply String.eqb_eq in Hv as ->. by apply list_elem_of_In.
  - intros Hin. exists (PStr s). split; [by apply list_elem_of_In |].
    apply String.eqb_refl.
Qed.

(** C4.  With the catalog loaded: a ticker whose upper-case form is not
    among the symbols is refused with [InvalidETFException], the message
    beginning with the ticker as given, and [__init__] raises it without a
    request being made; a ticker whose upper-case form is among the
    symbols resolves to that upper-case form and the URL of its page, and
    so does every other spelling with the same upper-case form. *)
Theorem resolve_ticker_spec ticker symbols :
  get_available_etfs_list = Ok symbols →
  (PStr (upper ticker) ∉ symbols →
   resolve_ticker ticker
   = Raise (Exn InvalidETFException
              (ticker +:+ " doesn't exist in ETF Database")) ∧
   ∀ w, __init__ ticker w
        = (Raise (Exn InvalidETFException
                    (ticker +:+ " doesn't exist in ETF Database")), w)) ∧
  (PStr (upper ticker) ∈ symbols →
   ∀ spelling, upper spelling = upper ticker →
     resolve_ticker spelling
     = Ok (upper ticker, _base_url +:+ "/etf/" +:+ upper ticker)).
Proof.
  intros Hload. split.
  - intros Hnot.
    assert (resolve_ticker ticker
            = Raise (Exn InvalidETFException
                       (ticker +:+ " doesn't exist in ETF Database"))) as Hr.
    { unfold resolve_ticker. rewrite Hload. simpl.
      destruct (str_in (upper ticker) symbols) eqn:Hin; [| done].
      by apply str_in_elem_of in Hin. }
    split; [exact Hr |]. intros w. unfold __init__. by rewrite Hr.
  - intros Hin spelling Hsame. unfold resolve_ticker. rewrite Hload. simpl.
    rewrite Hsame. apply str_in_elem_of in Hin. by rewrite Hin.
Qed.

End ETFDBClient_properties.

(** ** The properties at work on the scripted server and the sample page *)

Lemma _scrape_page_absorbs_failures_witness :
  @_scrape_page _ (scripted timing_out) 1 250 [] = (Ok (PList []), [1]) ∧
  @_scrape_page _ (scripted two_pages) 2 250 [1] = (Ok (PList []), [1; 2]).
Proof.
  split.
  - destruct (@_scrape_page_absorbs_failures _ (scripted timing_out)
                1 250 [] _ _ eq_refl) as (Htransport & _).
    apply (Htransport _ eq_refl). reflexivity.
  - destruct (@_scrape_page_absorbs_failures _ (scripted two_pages)
                2 250 [1] _ _ eq_refl) as (_ & _ & _ & _ & Hdata).
    apply (Hdata _ _ _ eq_refl eq_refl). vm_compute. reflexivity.
Defined.

Lemma get_etfs_raises_on_row_without_url_witness :
  @next _ (scripted nameless_page) 250 get_etfs []
  = (Raised (Exn TypeError "can only concatenate str to str"), Done, [1]) ∧
  @next _ (scripted nameless_page) 250 Done [1] = (StopIteration, Done, [1]).
Proof.
  apply (@get_etfs_raises_on_row_without_url _ (scripted nameless_page)
           250 [] [1] {["name" := PDict {["text" := PStr "SPDR S&P 500"]}]}).
  - vm_compute. reflexivity.
  - vm_compute. reflexivity.
  - right. exists {["text" := PStr "SPDR S&P 500"]}. vm_compute. reflexivity.
Defined.

Section sample_page_witnesses.
#[local] Existing Instance sample_transport.
#[local] Existing Instance sample_utils.
#[local] Existing Instance sample_host.

Lemma merge_later_extractor_wins_witness :
  ∃ merged,
    merged_sections sample_self = Ok merged ∧
    merged !! "Category" = Some (PStr "Total Market") ∧
    ("Category" ≠ "Analyst Report" →
     ∃ info, _basic_info sample_self = Ok info ∧
             info !! "Category" = Some (PStr "Total Market")).
Proof.
  apply (merge_later_extractor_wins sample_self
           sample_basics sample_profile_container sample_valuation_record
           sample_trading sample_assets sample_classification
           0 5 sample_basics sample_classification "Category"
           (PStr "Large Cap Blend") (PStr "Total Market")).
  1-6: vm_compute; reflexivity.
  - lia.
  - reflexivity.
  - reflexivity.
  - vm_compute. reflexivity.
  - vm_compute. reflexivity.
  - intros m s Hlt Hm. apply lookup_lt_Some in Hm. simpl in Hm. lia.
Defined.

Lemma _basic_info_keys_witness :
  _basic_info sample_self = Ok sample_info ∧
  is_Some (sample_info !! "Symbol") ∧ is_Some (sample_info !! "Url") ∧
  sample_info !! "Analyst Report" = None.
Proof.
  assert (_basic_info sample_self = Ok sample_info) as Hrun
    by (vm_compute; reflexivity).
  split; [exact Hrun |].
  exact (_basic_info_keys sample_self sample_info Hrun).
Defined.

Lemma home_page_value_stored_unchanged_witness :
  basic_info_row ∅ home_page_row
  = Ok (<["ETF Home Page" := PStr "https://etfdb.com/home/VTI"]> ∅) ∧
  str_replace "https://etfdb.com/home/VTI" _base_url "" = "/home/VTI".
Proof.
  split; [| vm_compute; reflexivity].
  apply (home_page_value_stored_unchanged ∅ home_page_row
           "https://etfdb.com/home/VTI").
  all: vm_compute; reflexivity.
Defined.

Lemma holding_entry_url_is_string_witness :
  ∃ entry, holding_entry cash_row = Ok entry ∧
           entry !! "Url" = Some (PStr "").
Proof.
  destruct (holding_entry_url_is_string cash_row) as (Hnolink & _).
  apply Hnolink. vm_compute. reflexivity.
Defined.

Lemma _asset_categories_one_block_raises_witness :
  _asset_categories (sample_client one_block_page)
  = Raise (Exn IndexError "list index out of range").
Proof.
  eapply (_asset_categories_one_block_raises (sample_client one_block_page)).
  - vm_compute. reflexivity.
  - vm_compute. reflexivity.
Defined.

Lemma holdings_list_empty_when_absent_witness :
  holdings_list (sample_client (sample_page [])) = Ok [].
Proof.
  apply (holdings_list_empty_when_absent (sample_client (sample_page []))).
  left. vm_compute. reflexivity.
Defined.

Lemma resolve_ticker_spec_witness :
  resolve_ticker "abc"
  = Raise (Exn InvalidETFException "abc doesn't exist in ETF Database") ∧
  resolve_ticker "vti" = Ok ("VTI", "https://etfdb.com/etf/VTI").
Proof.
  assert (get_available_etfs_list = Ok [PStr "SPY"; PStr "VTI"]) as Hload
    by (vm_compute; reflexivity).
  split.
  - destruct (resolve_ticker_spec "abc" _ Hload) as (Hinvalid & _).
    apply Hinvalid. intros Hin.
    repeat (apply elem_of_cons in Hin as [Heq | Hin]; [discriminate Heq |]).
    by apply elem_of_nil in Hin.
  - destruct (resolve_ticker_spec "VTI" _ Hload) as (_ & Hvalid).
    apply (Hvalid (list_elem_of_further _ _ _ (list_elem_of_here _ _)) "vti").
    reflexivity.
Defined.

End sample_page_witnesses.

(** * Further properties *)

(** ** The catalog scraper *)

Lemma comprehension_Forall2 {A B} (f : A → result B) xs ys :
  comprehension f xs = Ok ys ↔ Forall2 (fun x y => f x = Ok y) xs ys.
Proof.
  revert ys. induction xs as [| x xs IH]; intros ys; simpl.
  - split.
    + intros [= <-]. constructor.
    + intros Hall. by inversion Hall.
  - split.
    + intros Hrun. inv_bind Hrun. inv_bind Hrun. simplify_eq.
      constructor; [done | by apply IH].
    + intros Hall. inversion Hall as [| ? y ? ys' Hx Hrest]; subst.
      rewrite Hx. simpl. apply IH in Hrest. by rewrite Hrest.
Qed.

Section ETFListScraper_more_properties.
Context {World : Type} `{!BaseClient World}.

Lemma py_get_Ok_inv v key dflt out :
  py_get v key dflt = Ok out →
  ∃ d, v = PDict d ∧ out = default dflt (d !! key).
Proof. destruct v; simpl; intros Hget; simplify_eq; eauto. Qed.

Lemma str_add_Ok_inv s v out :
  str_add s v = Ok out → ∃ t, v = PStr t ∧ out = s +:+ t.
Proof. destruct v; simpl; intros Hadd; simplify_eq; eauto. Qed.

(** A record returned by [_parse_etf_record] has the seven keys of a
    catalog record and no other, and its [url] is a string that begins
    with the base URL. *)
Theorem _parse_etf_record_shape obj record :
  _parse_etf_record obj = Ok record →
  dom record
  = {["symbol"; "name"; "url"; "one_week_return"; "one_year_return";
      "three_year_return"; "five_year_return"]} ∧
  ∃ u, record !! "url" = Some (PStr (_base_url +:+ u)).
Proof.
  intros Hrun. unfold _parse_etf_record in Hrun.
  do 6 inv_bind Hrun. inv_bind Hrun.
  apply str_add_Ok_inv in Ha5 as (u & -> & ->).
  do 4 inv_bind Hrun. simplify_eq. split.
  - rewrite !dom_insert_L, dom_empty_L. set_solver.
  - exists u. by simplify_map_eq.
Qed.

(** A row that is not an object, or whose [symbol] is there but is not an
    object (a string, or [null]), is not normalised: asking it for [get]
    raises [AttributeError]. *)
Theorem _parse_etf_record_not_object obj :
  (∀ d, obj = PDict d →
        ∃ v, d !! "symbol" = Some v ∧ ∀ s, v ≠ PDict s) →
  _parse_etf_record obj
  = Raise (Exn AttributeError "object has no attribute 'get'").
Proof.
  intros Hobj. unfold _parse_etf_record.
  destruct obj as [| | | | | d]; try reflexivity.
  destruct (Hobj d eq_refl) as (v & Hv & Hnot).
  simpl. rewrite Hv. simpl.
  destruct v; try reflexivity. by destruct (Hnot d0).
Qed.

(** [_prepare_etfs_list] on a list of rows returns one record for each
    row, in the order of the rows, and returns only if every row is
    normalised. *)
Theorem _prepare_etfs_list_rows rows batch :
  _prepare_etfs_list (PList rows) = Ok batch ↔
  Forall2 (fun row record => _parse_etf_record row = Ok record) rows batch.
Proof. unfold _prepare_etfs_list. simpl. apply comprehension_Forall2. Qed.

(** An exception outside the four classes that [_scrape_page] names, such
    as the [TypeError] of a body that is not an object or the error of a
    body that is not JSON, is raised to the caller; [get_etfs] raises it in
    turn and is finished. *)
Theorem _scrape_page_propagates page page_size w reply w' e :
  post_request (_prepare_request_body page page_size) w = (reply, w') →
  (r ← reply; body ← response_json r; py_getitem body "data") = Raise e →
  caught_by e [ConnectionError; Timeout; AttributeError; KeyError] = false →
  _scrape_page page page_size w = (Raise e, w') ∧
  next page_size (Running page) w = (Raised e, Done, w').
Proof.
  intros Hpost Hattempt Hclass.
  assert (_scrape_page page page_size w = (Raise e, w')) as Hscrape.
  { rewrite (_scrape_page_unfold _ _ _ _ _ Hpost), Hattempt. by rewrite Hclass. }
  split; [exact Hscrape |]. simpl. by rewrite Hscrape.
Qed.

(** One [next] of the generator: a batch is produced only by a running
    generator, which then stands at the following page; after anything
    else the generator is finished. *)
Theorem next_finished page_size st w ev st' w' :
  next page_size st w = (ev, st', w') →
  match ev with
  | Yield _ => ∃ page, st = Running page ∧ st' = Running (page + 1)
  | _ => st' = Done
  end.
Proof.
  intros Hnext. destruct st as [page |]; simpl in Hnext.
  - destruct (_scrape_page page page_size w) as [[etfs | e] w1].
    + destruct (negb (truthy etfs)); [by simplify_eq |].
      destruct (_prepare_etfs_list etfs); simplify_eq; eauto.
    + by simplify_eq.
  - by simplify_eq.
Qed.

(** Fuel beyond what a run needs does not change it. *)
Theorem drain_more_fuel fuel :
  ∀ fuel' page_size st w out w',
    drain fuel page_size st w = (Some out, w') →
    (fuel ≤ fuel')%nat →
    drain fuel' page_size st w = (Some out, w').
Proof.
  induction fuel as [| fuel IH]; intros fuel' page_size st w out w' Hrun Hle.
  - discriminate.
  - destruct fuel' as [| fuel']; [lia |]. simpl in *.
    destruct (next page_size st w) as [[ev st1] w1].
    destruct ev as [batch | |]; [| done | done].
    destruct (drain fuel page_size st1 w1) as [rest w2] eqn:Hrest.
    destruct rest as [rest |]; simpl in Hrun; [| discriminate].
    rewrite (IH fuel' _ _ _ _ _ Hrest) by lia. exact Hrun.
Qed.

(** When the requests for [page], [page + 1], ... are answered with pages
    that are not empty and whose rows are all normalised, and the next
    request with an empty page, then [drain], given more fuel than there
    are such pages, returns the records of these pages, in order, and
    leaves the world as the last request left it. *)
Theorem drain_until_empty_page page_size pages :
  ∀ page w w1 batches last w2 fuel,
    serves page_size page w pages w1 →
    Forall (fun etfs => truthy etfs = true) pages →
    Forall2 (fun etfs batch => _prepare_etfs_list etfs = Ok batch)
      pages batches →
    _scrape_page (page + Z.of_nat (length pages)) page_size w1
    = (Ok last, w2) →
    truthy last = false →
    (length pages < fuel)%nat →
    drain fuel page_size (Running page) w = (Some (Ok (concat batches)), w2).
Proof.
  induction pages as [| etfs pages IH];
    intros page w w1 batches last w2 fuel Hserves Htruthy Hbatches Hlast
      Hempty Hfuel.
  - inversion Hserves; subst. inversion Hbatches; subst.
    destruct fuel as [| fuel]; [simpl in Hfuel; lia |].
    simpl in Hlast. rewrite Z.add_0_r in Hlast.
    simpl. by rewrite Hlast, Hempty.
  - inversion Hserves as [| ? ? ? w' ? ? Hscrape Hrest]; subst.
    inversion Htruthy as [| ? ? Hetfs Hpages]; subst.
    inversion Hbatches as [| ? batch ? batches' Hbatch Hbatches']; subst.
    destruct fuel as [| fuel]; [simpl in Hfuel; lia |].
    cbn [drain next]. rewrite Hscrape, Hetfs. cbn [negb]. rewrite Hbatch.
    erewrite IH; [reflexivity | exact Hrest | done | done | | done |].
    + replace (page + 1 + Z.of_nat (length pages))
        with (page + Z.of_nat (length (etfs :: pages))); [exact Hlast |].
      simpl length. lia.
    + simpl in Hfuel. lia.
Qed.

End ETFListScraper_more_properties.

(** ** The document parser *)

Lemma upper_char_idempotent c : upper_char (upper_char c) = upper_char c.
Proof. destruct c as [[] [] [] [] [] [] [] []]; reflexivity. Qed.

Lemma upper_idempotent s : upper (upper s) = upper s.
Proof.
  induction s as [| c s IH]; simpl; [done |].
  by rewrite upper_char_idempotent, IH.
Qed.

(** A loop raises only what a round of its body raises. *)
Lemma for_each_Raise_inv {A S} (body : S → A → result S) xs :
  ∀ s e, for_each body xs s = Raise e →
         ∃ x s0, x ∈ xs ∧ body s0 x = Raise e.
Proof.
  induction xs as [| x xs IH]; intros s e Hrun; simpl in Hrun; [done |].
  destruct (body s x) as [s1 | e1] eqn:Hbody; simpl in Hrun.
  - destruct (IH _ _ Hrun) as (y & s0 & Hy & Hraise).
    exists y, s0. split; [by right | done].
  - simplify_eq. exists x, s. split; [by left | done].
Qed.

Lemma elem_of_concat {A} (x : A) (ls : list (list A)) :
  x ∈ concat ls ↔ ∃ l, x ∈ l ∧ l ∈ ls.
Proof.
  induction ls as [| l ls IH]; simpl.
  - split; [by intros ?%elem_of_nil | by intros (l & _ & ?%elem_of_nil)].
  - rewrite elem_of_app, IH. split.
    + intros [Hx | (l' & Hx & Hl')].
      * exists l. split; [done | by left].
      * exists l'. split; [done | by right].
    + intros (l' & Hx & [-> | Hl']%elem_of_cons); [by left |].
      right. eauto.
Qed.

(** A loop returns only if each of its rounds does. *)
Lemma for_each_Ok_inv {A S} (body : S → A → result S) xs :
  ∀ s s', for_each body xs s = Ok s' →
          ∀ x, x ∈ xs → ∃ s0 s1, body s0 x = Ok s1.
Proof.
  induction xs as [| y xs IH]; intros s s' Hrun x Hx; simpl in Hrun.
  - by apply elem_of_nil in Hx.
  - inv_bind Hrun. apply elem_of_cons in Hx as [-> | Hx]; eauto.
Qed.

(** A loop keeps what each round on one of its items keeps. *)
Lemma for_each_invariant_in {A S} (P : S → Prop) (body : S → A → result S) xs :
  (∀ s x s', x ∈ xs → body s x = Ok s' → P s → P s') →
  ∀ s s', for_each body xs s = Ok s' → P s → P s'.
Proof.
  induction xs as [| x xs IH]; intros Hbody s s' Hrun Hs; simpl in Hrun.
  - by simplify_eq.
  - inv_bind Hrun. eapply IH; [| exact Hrun |].
    + intros s1 y s2 Hy. apply Hbody. by right.
    + eapply Hbody; [by left | exact Ha | exact Hs].
Qed.

Lemma lookup_dict_of_pairs {V} (pairs : list (string * V)) key v :
  dict_of_pairs pairs !! key = Some v → (key, v) ∈ pairs.
Proof.
  unfold dict_of_pairs.
  assert (∀ start : gmap string V,
            foldl (fun d kv => <[kv.1 := kv.2]> d) start pairs !! key = Some v →
            (key, v) ∈ pairs ∨ start !! key = Some v) as Hgen.
  { induction pairs as [| [k w] pairs IH]; intros start Hl; simpl in Hl.
    - by right.
    - destruct (IH _ Hl) as [Hin | Hstart].
      + left. by right.
      + simpl in Hstart. destruct (decide (k = key)) as [-> | Hne].
        * rewrite lookup_insert_eq in Hstart. simplify_eq. left. by left.
        * rewrite lookup_insert_ne in Hstart by done. by right. }
  intros Hl. destruct (Hgen ∅ Hl) as [Hin | Hempty]; [done |].
  by rewrite lookup_empty in Hempty.
Qed.

(** [dict] of a list of lists: an item that is not a pair is refused. *)
Lemma dict_of_lists_wrong_length items item :
  item ∈ items → length item ≠ 2%nat →
  dict_of_lists items
  = Raise (Exn ValueError
             "dictionary update sequence element has wrong length").
Proof.
  intros Hin Hlen. unfold dict_of_lists.
  match goal with |- ?m = _ => destruct m as [d | e] eqn:Hrun end.
  - destruct (for_each_Ok_inv _ _ _ _ Hrun item Hin) as (s0 & s1 & Hbody).
    destruct item as [| k [| v [| x rest]]]; simplify_eq/=.
  - apply for_each_Raise_inv in Hrun as (x & s0 & _ & Hbody).
    destruct x as [| k [| v [| y rest]]]; by simplify_eq/=.
Qed.

(** [dict] of a list of lists: each entry comes from a pair of the list. *)
Lemma lookup_dict_of_lists items d key v :
  dict_of_lists items = Ok d →
  d !! key = Some v →
  ∃ s, [key; s] ∈ items ∧ v = PStr s.
Proof.
  intros Hrun. revert key v. unfold dict_of_lists in Hrun.
  eapply (for_each_invariant_in
            (fun d => ∀ key v, d !! key = Some v →
                               ∃ s, [key; s] ∈ items ∧ v = PStr s));
    [| exact Hrun |].
  - intros s x s' Hx Hbody Hs key v Hl.
    destruct x as [| k [| w [| y rest]]]; simplify_eq/=.
    destruct (decide (k = key)) as [-> | Hne].
    + rewrite lookup_insert_eq in Hl. simplify_eq. eauto.
    + rewrite lookup_insert_ne in Hl by done. eauto.
  - intros key v Hl. by rewrite lookup_empty in Hl.
Qed.

Section ETFDBClient_more_properties.
Context {World : Type} `{!BaseClient World} `{!Utils} `{!Host}.

(** What [resolve_ticker] returns is the upper-case form of the ticker with
    the URL of its page, and resolving the ticker returned gives the same
    again. *)
Theorem resolve_ticker_idempotent ticker t url :
  resolve_ticker ticker = Ok (t, url) →
  t = upper ticker ∧
  url = _base_url +:+ "/etf/" +:+ t ∧
  resolve_ticker t = Ok (t, url).
Proof.
  intros Hrun. unfold resolve_ticker in *.
  destruct get_available_etfs_list as [symbols | e]; simpl in *; [| done].
  destruct (str_in (upper ticker) symbols) eqn:Hin; simplify_eq.
  rewrite upper_idempotent, Hin. done.
Qed.

(** The constructor, for a ticker of the catalog: it requests the page of
    the upper-case ticker, with a slash at the end; an exception of the
    session is raised as it is, a status other than 200 raises [Exception]
    with the status and the reason in its message, and status 200 gives
    the client with the parsed text of the reply. *)
Theorem __init___requests_page ticker t url w reply w' :
  resolve_ticker ticker = Ok (t, url) →
  session_get (_base_url +:+ "/etf/" +:+ upper ticker +:+ "/") w
  = (reply, w') →
  __init__ ticker w
  = (match reply with
     | Raise e => Raise e
     | Ok response =>
         if Z.eqb (status_code response) 200
         then Ok {| _ticker := upper ticker;
                    _ticker_url := _base_url +:+ "/etf/" +:+ upper ticker;
                    _soup := BeautifulSoup (text response) |}
         else Raise (Exn Exception
                       ("response " +:+ pretty (status_code response)
                        +:+ ": " +:+ reason response))
     end, w').
Proof.
  intros Hresolve Hget.
  destruct (resolve_ticker_idempotent _ _ _ Hresolve) as (-> & -> & _).
  unfold __init__, _make_soup_request, _prepare_url.
  rewrite Hresolve, Hget.
  destruct reply as [response | e]; simpl; [| done].
  by destruct (Z.eqb (status_code response) 200).
Qed.

(** The symbols of the catalog are the values under [symbol] of its
    entries, in the order of the file; an entry that is an object without
    [symbol] makes the list fail with [KeyError] when the entries before it
    are sound. *)
Theorem get_available_etfs_list_entries entries :
  _load_available_etfs = Ok (PList entries) →
  (∀ symbols,
     get_available_etfs_list = Ok symbols ↔
     Forall2 (fun entry symbol => py_getitem entry "symbol" = Ok symbol)
       entries symbols) ∧
  (∀ sound symbols d rest,
     entries = (sound ++ PDict d :: rest)%list →
     Forall2 (fun entry symbol => py_getitem entry "symbol" = Ok symbol)
       sound symbols →
     d !! "symbol" = None →
     get_available_etfs_list = Raise (Exn KeyError "symbol")).
Proof.
  intros Hload. unfold get_available_etfs_list. rewrite Hload. simpl.
  split.
  - intros symbols. apply comprehension_Forall2.
  - intros sound symbols d rest -> Hsound Hd. clear Hload.
    induction Hsound as [| entry symbol sound symbols Hentry _ IH]; simpl.
    + by rewrite Hd.
    + rewrite Hentry. simpl. rewrite IH. reflexivity.
Qed.

(** The trading data returned hold strings only, none of them empty: an
    item with a blank value is left out. *)
Theorem _trading_data_no_blank self d key v :
  _trading_data self = Ok d →
  d !! key = Some v →
  ∃ s, v = PStr s ∧ s ≠ "".
Proof.
  intros Hrun Hkey. unfold _trading_data in Hrun. do 2 inv_bind Hrun.
  simplify_eq. rewrite lookup_fmap in Hkey.
  destruct (filter _ a0 !! key) as [s |] eqn:Hs; simplify_eq/=.
  apply map_lookup_filter_Some in Hs as [_ Hne]. eauto.
Qed.

(** [_trading_data] raises nothing but the [AttributeError] of a missing
    block or of an item with fewer than two children. *)
Theorem _trading_data_raises_AttributeError self e :
  _trading_data self = Raise e →
  e = Exn AttributeError "'NoneType' object has no attribute" ∧
  (find (_soup self) "div"
     [("class", Exactly "data-trading bar-charts-table")] = None ∨
   ∃ block li,
     find (_soup self) "div"
       [("class", Exactly "data-trading bar-charts-table")] = Some block ∧
     li ∈ find_all block "li" [] ∧
     (select_one_nth_child li 1 = None ∨ select_one_nth_child li 2 = None)).
Proof.
  intros Hrun. unfold _trading_data in Hrun.
  destruct (find (_soup self) "div" _) as [block |] eqn:Hblock; simpl in Hrun.
  - match type of Hrun with
    | bind ?m _ = _ => destruct m as [dict | e'] eqn:Hloop
    end; simpl in Hrun; simplify_eq.
    apply for_each_Raise_inv in Hloop as (li & s0 & Hli & Hbody).
    destruct (select_one_nth_child li 1) as [k |] eqn:Hk; simpl in Hbody.
    + destruct (select_one_nth_child li 2) as [v |] eqn:Hv; simpl in Hbody;
        simplify_eq. split; [done |]. right. exists block, li. eauto.
    + simplify_eq. split; [done |]. right. exists block, li. eauto.
  - simplify_eq. eauto.
Qed.

Lemma holding_entry_Raise_inv record e :
  holding_entry record = Raise e →
  e = Exn KeyError "href" ∧
  ∃ a, find record "a" [] = Some a ∧ tag_attrs a !! "href" = None.
Proof.
  unfold holding_entry. intros Hrun.
  destruct (find record "a" []) as [a |] eqn:Ha; simpl in Hrun.
  - unfold getitem in Hrun.
    destruct (tag_attrs a !! "href") as [href |] eqn:Hhref;
      simpl in Hrun; simplify_eq. eauto.
  - simplify_eq.
Qed.

Lemma holding_entry_without_href record a :
  find record "a" [] = Some a →
  tag_attrs a !! "href" = None →
  holding_entry record = Raise (Exn KeyError "href").
Proof.
  intros Ha Hhref. unfold holding_entry. rewrite Ha. simpl.
  unfold getitem. by rewrite Hhref.
Qed.

(** A row of the holdings table whose first link has no [href] makes the
    extraction of the holdings fail: [KeyError] is not among the exceptions
    caught, and [_holdings] raises it. *)
Theorem holdings_list_link_without_href self section tbody record a :
  find (_soup self) "div" [("id", Exactly "holding_section")] = Some section →
  find section "tbody" [] = Some tbody →
  record ∈ find_all tbody "tr" [] →
  find record "a" [] = Some a →
  tag_attrs a !! "href" = None →
  holdings_list self = Raise (Exn KeyError "href") ∧
  _holdings self = Raise (Exn KeyError "href").
Proof.
  intros Hsection Htbody Hrecord Ha Hhref.
  assert (holdings_list self = Raise (Exn KeyError "href")) as Hlist.
  { unfold holdings_list. rewrite Hsection. simpl. rewrite Htbody. simpl.
    match goal with
    | |- try_except ?m _ _ = _ => destruct m as [out | e] eqn:Hloop
    end.
    - apply for_each_append in Hloop as (ys & _ & Hys).
      apply list_elem_of_lookup in Hrecord as [i Hi].
      destruct (Forall2_lookup_l _ _ _ _ _ Hys Hi) as (y & _ & Hy).
      by rewrite (holding_entry_without_href _ _ Ha Hhref) in Hy.
    - apply for_each_Raise_inv in Hloop as (x & s0 & _ & Hbody).
      destruct (holding_entry x) as [texts | e'] eqn:Hx; simpl in Hbody;
        [done |].
      simplify_eq. apply holding_entry_Raise_inv in Hx as [-> _].
      reflexivity. }
  split; [exact Hlist |]. unfold _holdings. by rewrite Hlist.
Qed.

(** The list of holdings returned on a page with a holdings table has one
    entry for each row of the table body, in the order of the rows. *)
Theorem holdings_list_one_entry_per_row self section tbody entries :
  find (_soup self) "div" [("id", Exactly "holding_section")] = Some section →
  find section "tbody" [] = Some tbody →
  holdings_list self = Ok entries →
  Forall2 (fun record entry => holding_entry record = Ok entry)
    (find_all tbody "tr" []) entries ∧
  length entries = length (find_all tbody "tr" []).
Proof.
  intros Hsection Htbody Hrun. unfold holdings_list in Hrun.
  rewrite Hsection in Hrun. simpl in Hrun. rewrite Htbody in Hrun.
  simpl in Hrun.
  match type of Hrun with
  | try_except ?m _ _ = _ => destruct m as [out | e] eqn:Hloop
  end; simpl in Hrun.
  - simplify_eq. apply for_each_append in Hloop as (ys & -> & Hys).
    split; [exact Hys |]. symmetry. by eapply Forall2_length.
  - apply for_each_Raise_inv in Hloop as (x & s0 & _ & Hbody).
    destruct (holding_entry x) as [texts | e'] eqn:Hx; simpl in Hbody;
      [done |].
    simplify_eq. apply holding_entry_Raise_inv in Hx as [-> _].
    discriminate Hrun.
Qed.

(** The cells of an entry: [Symbol], [Holding] and [Share] hold the texts
    of the first, second and third cell of the row; the key of a cell that
    the row has not is absent, and a fourth or later cell is not read. *)
Theorem holding_entry_cells record entry (i : nat) key :
  holding_entry record = Ok entry →
  ["Symbol"; "Holding"; "Share"] !! i = Some key →
  entry !! key
  = (fun cell => PStr (get_text cell)) <$> (find_all record "td" [] !! i).
Proof.
  intros Hrun Hkey. unfold holding_entry in Hrun. inv_bind Hrun.
  simplify_eq. rewrite lookup_update.
  assert (key ≠ "Url") as Hne.
  { intros ->. by repeat (destruct i as [| i]; simplify_eq/=). }
  rewrite lookup_singleton_ne by done.
  destruct (find_all record "td" []) as [| c1 [| c2 [| c3 rest]]];
    repeat (destruct i as [| i]; simplify_eq/=);
    unfold dict_of_pairs; simpl; by simplify_map_eq.
Qed.

Lemma profile_rows_loop rows :
  ∀ acc out,
    for_each
      (fun results row =>
         record ← _handle_spans (find_all row "span" []);
         match record with
         | None => Ok results
         | Some kv => Ok (results ++ [kv])%list
         end) rows acc = Ok out →
    ∀ kv, kv ∈ out →
          kv ∈ acc ∨
          ∃ row, row ∈ rows ∧
                 _handle_spans (find_all row "span" []) = Ok (Some kv).
Proof.
  induction rows as [| row rows IH]; intros acc out Hrun kv Hkv;
    simpl in Hrun.
  - simplify_eq. by left.
  - inv_bind Hrun. inv_bind Ha.
    destruct (IH _ _ Hrun kv Hkv) as [Hacc | (r & Hr & Hspans)].
    + destruct a0 as [kv' |]; simplify_eq.
      * apply elem_of_app in Hacc as [Hacc | Hnew]; [by left |].
        apply list_elem_of_singleton in Hnew as ->.
        right. exists row. split; [by left | done].
      * by left.
    + right. exists r. split; [by right | done].
Qed.

(** Every field of the profile container record was read off the spans of
    one of the rows of the container: a row whose spans are not read as a
    label and a value leaves no trace. *)
Theorem _profile_container_entries self d key v :
  _profile_container self = Ok d →
  d !! key = Some v →
  ∃ container row,
    find (_soup self) "div" [("class", Exactly "profile-container")]
    = Some container ∧
    row ∈ find_all container "div" [("class", Exactly "row")] ∧
    _handle_spans (find_all row "span" []) = Ok (Some (key, v)).
Proof.
  intros Hrun Hkey. unfold _profile_container in Hrun.
  destruct (find (_soup self) "div" _) as [container |] eqn:Hc;
    simpl in Hrun; [| done].
  inv_bind Hrun. simplify_eq.
  apply lookup_dict_of_pairs in Hkey.
  destruct (profile_rows_loop _ _ _ Ha _ Hkey) as [Hnil | (row & Hrow & Hs)].
  - by apply elem_of_nil in Hnil.
  - eauto.
Qed.

(** The valuation block is read off its second row: with fewer than two
    rows [_valuation] raises [IndexError]. *)
Theorem _valuation_needs_two_rows self tab block :
  find (_soup self) "div"
    [("id", Exactly "etf-ticker-valuation-dividend_tab")] = Some tab →
  find tab "div" [("id", Exactly "valuation")] = Some block →
  (length (find_all block "div" [("class", Exactly "row")]) < 2)%nat →
  _valuation self = Raise (Exn IndexError "list index out of range").
Proof.
  intros Htab Hblock Hlen. unfold _valuation.
  rewrite Htab. simpl. rewrite Hblock. simpl.
  unfold index. rewrite list_lookup_fmap.
  rewrite (lookup_ge_None_2 _ 1%nat) by lia. reflexivity.
Qed.

Lemma valuation_step_nonempty results item results' :
  valuation_step results item = Ok results' →
  (∀ k inner, results !! k = Some inner → inner ≠ ∅) →
  ∀ k inner, results' !! k = Some inner → inner ≠ ∅.
Proof.
  intros Hstep Hres k inner Hk. unfold valuation_step in Hstep.
  destruct item as [name [| k' [| v' [| x rest]]]]; simplify_eq/=.
  destruct (decide (k' = k)) as [-> | Hne].
  - rewrite lookup_insert_eq in Hk. simplify_eq. apply insert_non_empty.
  - rewrite lookup_insert_ne in Hk by done. eauto.
Qed.

(** The valuation record has two levels: under each metric a map, never
    empty, from sub-labels to strings. *)
Theorem _valuation_shape self d key v :
  _valuation self = Ok d →
  d !! key = Some v →
  ∃ inner : gmap string string, v = PDict (PStr <$> inner) ∧ inner ≠ ∅.
Proof.
  intros Hrun Hkey. unfold _valuation in Hrun. do 6 inv_bind Hrun.
  injection Hrun as <-. rewrite lookup_fmap in Hkey.
  match goal with
  | Hloop : for_each valuation_step _ _ = Ok ?results |- _ =>
      destruct (results !! key) as [inner |] eqn:Hinner; simplify_eq/=;
      rename Hloop into Hresults
  end.
  exists inner. split; [done |].
  eapply (for_each_invariant
            (fun results : gmap string (gmap string string) =>
               ∀ k inner, results !! k = Some inner → inner ≠ ∅));
    [| exact Hresults | | exact Hinner].
  - intros s x s' Hstep Hs. by apply (valuation_step_nonempty s x).
  - intros k i Hl. by rewrite lookup_empty in Hl.
Qed.

(** Assembly is all or nothing: [_basic_info] returns exactly when the
    rows of the ticker body and the five extractors all return, and what it
    returns is their records merged in order, less [Analyst Report]. *)
Theorem _basic_info_all_or_nothing self info :
  _basic_info self = Ok info ↔
  ∃ basics profile valuation trading assets classification,
    ticker_body_basics self = Ok basics ∧
    _profile_container self = Ok profile ∧
    _valuation self = Ok valuation ∧
    _trading_data self = Ok trading ∧
    _asset_categories self = Ok assets ∧
    _factset_classification self = Ok classification ∧
    info = delete "Analyst Report"
             (foldl update basics
                [profile; valuation; trading; assets; classification]).
Proof.
  split.
  - intros Hrun.
    destruct (merged_sections self) as [merged | e] eqn:Hm.
    + rewrite (_basic_info_pop _ _ Hm) in Hrun. simplify_eq.
      apply merged_sections_inv in Hm
        as (b & p & v & t & a & c & Hb & Hp & Hv & Ht & Ha & Hc & ->).
      exists b, p, v, t, a, c. done.
    + unfold _basic_info in Hrun. rewrite Hm in Hrun. done.
  - intros (b & p & v & t & a & c & Hb & Hp & Hv & Ht & Ha & Hc & ->).
    apply _basic_info_pop. by apply merged_sections_Ok.
Qed.

(** A row of the ticker body whose value cell holds a link with an [href]:
    the [href] is stored behind the base URL, except that the [href] of the
    row [ETF Home Page] is stored as it is written, whatever it begins
    with, and that an empty [href] is stored as the empty string. *)
Theorem basic_info_row_link info row key cell a href :
  _handle_nth_child row 1 = Ok key →
  select_one_nth_child row 2 = Some cell →
  find cell "a" [] = Some a →
  tag_attrs a !! "href" = Some href →
  basic_info_row info row
  = Ok (<[key := PStr (if String.eqb href "" || String.eqb key "ETF Home Page"
                       then href else _base_url +:+ href)]> info).
Proof.
  intros Hkey Hcell Ha Hhref. unfold basic_info_row.
  rewrite Hkey. simpl. rewrite Hcell. unfold row_value_text. simpl.
  rewrite Ha. simpl. unfold getitem. rewrite Hhref. simpl.
  rewrite <- update_singleton.
  destruct (String.eqb href ""), (String.eqb key "ETF Home Page");
    reflexivity.
Qed.

(** A row of the ticker body whose value cell holds no link, or a link
    without [href], is stored with the trimmed text of the cell. *)
Theorem basic_info_row_text info row key cell :
  _handle_nth_child row 1 = Ok key →
  select_one_nth_child row 2 = Some cell →
  (find cell "a" [] = None ∨
   ∃ a, find cell "a" [] = Some a ∧ tag_attrs a !! "href" = None) →
  basic_info_row info row = Ok (<[key := PStr (strip (get_text cell))]> info).
Proof.
  intros Hkey Hcell Hlink. unfold basic_info_row.
  rewrite Hkey. simpl. rewrite Hcell. unfold row_value_text. simpl.
  rewrite <- update_singleton.
  destruct Hlink as [-> | (a & -> & Hhref)]; simpl.
  - reflexivity.
  - unfold getitem. rewrite Hhref. reflexivity.
Qed.

Lemma basic_info_row_Ok_inv info row info' :
  basic_info_row info row = Ok info' →
  (∃ key, _handle_nth_child row 1 = Ok key) ∧
  is_Some (select_one_nth_child row 2).
Proof.
  intros Hrun. unfold basic_info_row in Hrun. do 2 inv_bind Hrun.
  split; [eauto |].
  destruct (select_one_nth_child row 2); [eauto |].
  discriminate Ha0.
Qed.

(** The basics are returned only if every row of the ticker body has a key
    and a second child: for a row without a second child the missing cell
    is asked for its link, which raises an [AttributeError] that is not
    among the exceptions caught. *)
Theorem ticker_body_basics_rows self basics :
  ticker_body_basics self = Ok basics →
  ∃ body top,
    find (_soup self) "div" [("id", Exactly "etf-ticker-body")] = Some body ∧
    find body "div" [("class", Exactly "row")] = Some top ∧
    ∀ row, row ∈ find_all top "div" [("class", Exactly "row")] →
           (∃ key, _handle_nth_child row 1 = Ok key) ∧
           is_Some (select_one_nth_child row 2).
Proof.
  intros Hrun. unfold ticker_body_basics in Hrun.
  destruct (find (_soup self) "div" _) as [body |] eqn:Hbody;
    simpl in Hrun; [| done].
  destruct (find body "div" _) as [top |] eqn:Htop; simpl in Hrun; [| done].
  exists body, top. split; [done |]. split; [done |].
  intros row Hrow.
  destruct (for_each_Ok_inv _ _ _ _ Hrun row Hrow) as (s0 & s1 & Hbody1).
  by apply basic_info_row_Ok_inv in Hbody1.
Qed.

(** A page whose ticker body holds exactly one [ticker-assets] block
    yields neither holdings nor a profile: when everything called before
    the asset categories returns, [_holdings] and [_basic_info] both raise
    the [IndexError] of [_asset_categories]. *)
Theorem one_block_breaks_holdings_and_profile self body block :
  find (_soup self) "div" [("id", Exactly "etf-ticker-body")] = Some body →
  find_all body "div" [("class", Exactly "ticker-assets")] = [block] →
  (∀ entries statistics,
     holdings_list self = Ok entries →
     _number_of_holdings self = Ok statistics →
     _holdings self = Raise (Exn IndexError "list index out of range")) ∧
  (∀ basics profile valuation trading,
     ticker_body_basics self = Ok basics →
     _profile_container self = Ok profile →
     _valuation self = Ok valuation →
     _trading_data self = Ok trading →
     _basic_info self = Raise (Exn IndexError "list index out of range")).
Proof.
  intros Hbody Hblocks.
  assert (_asset_categories self
          = Raise (Exn IndexError "list index out of range")) as Hassets.
  { unfold _asset_categories. rewrite Hbody. simpl. by rewrite Hblocks. }
  split.
  - intros entries statistics Hlist Hstats. unfold _holdings.
    by rewrite Hlist, Hstats, Hassets.
  - intros basics profile valuation trading Hb Hp Hv Ht.
    unfold _basic_info, merged_sections.
    by rewrite Hb, Hp, Hv, Ht, Hassets.
Qed.

Lemma technicals_loop sections :
  ∀ acc,
    for_each
      (fun results section =>
         try_except (Ok (results ++ section_lines section)%list)
           [KeyError; TypeError] (fun _ => Ok results))
      sections acc
    = Ok (acc ++ concat (map section_lines sections))%list.
Proof.
  induction sections as [| section sections IH]; intros acc; simpl.
  - by rewrite app_nil_r.
  - rewrite IH. by rewrite <- app_assoc.
Qed.

Lemma _technicals_unfold self block :
  find (_soup self) "div" [("id", Exactly "technicals-collapse")]
  = Some block →
  _technicals self
  = dict_of_lists
      (concat (map section_lines
                 (find_all block "ul" [("class", Exactly "list-unstyled")]))).
Proof.
  intros Hblock. unfold _technicals. rewrite Hblock. simpl.
  by rewrite technicals_loop.
Qed.

(** An item of the technicals lists whose trimmed text is not made of
    exactly two lines makes [_technicals] raise [ValueError]: the
    [except] clause around the items catches other classes only. *)
Theorem _technicals_item_not_two_lines self block section li :
  find (_soup self) "div" [("id", Exactly "technicals-collapse")]
  = Some block →
  section ∈ find_all block "ul" [("class", Exactly "list-unstyled")] →
  li ∈ find_all section "li" [] →
  length (str_split (strip (get_text li)) (String "010" EmptyString)) ≠ 2%nat →
  _technicals self
  = Raise (Exn ValueError
             "dictionary update sequence element has wrong length").
Proof.
  intros Hblock Hsection Hli Hlen.
  rewrite (_technicals_unfold _ _ Hblock).
  apply (dict_of_lists_wrong_length _
           (str_split (strip (get_text li)) (String "010" EmptyString)));
    [| exact Hlen].
  apply elem_of_concat. exists (section_lines section). split.
  - unfold section_lines. apply list_elem_of_fmap. eauto.
  - apply list_elem_of_fmap. eauto.
Qed.

(** Every indicator returned by [_technicals] is the second line of an
    item of one of the lists, under the first line of that item. *)
Theorem _technicals_entries self d key v :
  _technicals self = Ok d →
  d !! key = Some v →
  ∃ block section li value,
    find (_soup self) "div" [("id", Exactly "technicals-collapse")]
    = Some block ∧
    section ∈ find_all block "ul" [("class", Exactly "list-unstyled")] ∧
    li ∈ find_all section "li" [] ∧
    str_split (strip (get_text li)) (String "010" EmptyString) = [key; value] ∧
    v = PStr value.
Proof.
  intros Hrun Hkey.
  destruct (find (_soup self) "div" [("id", Exactly "technicals-collapse")])
    as [block |] eqn:Hblock.
  - rewrite (_technicals_unfold _ _ Hblock) in Hrun.
    destruct (lookup_dict_of_lists _ _ _ _ Hrun Hkey) as (value & Hin & ->).
    apply elem_of_concat in Hin as (lines & Hin & Hlines).
    apply list_elem_of_fmap in Hlines as (section & -> & Hsection).
    unfold section_lines in Hin.
    apply list_elem_of_fmap in Hin as (li & Hsplit & Hli).
    exists block, section, li, value. done.
  - unfold _technicals in Hrun. rewrite Hblock in Hrun. done.
Qed.

(** A metric row of the technicals block whose trimmed text is not cut in
    two by the delimiter of four line breaks makes [_volatility] raise
    [ValueError]. *)
Theorem _volatility_row_not_two_parts self block row :
  find (_soup self) "div" [("id", Exactly "technicals-collapse")]
  = Some block →
  row ∈ find_all block "div" [("class", Search "row relative-metric")] →
  length (str_split (strip (get_text row)) four_newlines) ≠ 2%nat →
  _volatility self
  = Raise (Exn ValueError
             "dictionary update sequence element has wrong length").
Proof.
  intros Hblock Hrow Hlen. unfold _volatility. rewrite Hblock. simpl.
  apply (dict_of_lists_wrong_length _
           (str_split (strip (get_text row)) four_newlines)); [| exact Hlen].
  apply list_elem_of_fmap. eauto.
Qed.

End ETFDBClient_more_properties.

(** ** The further properties at work *)

Lemma _parse_etf_record_with_url_witness :
  ∃ record,
    @_parse_etf_record _ (scripted two_pages)
      (raw_row "SPY" "/etf/SPY/" "SPDR S&P 500") = Ok record ∧
    record !! "url" = Some (PStr "https://etfdb.com/etf/SPY/") ∧
    record !! "one_year_return" = Some PNone.
Proof.
  destruct (@_parse_etf_record_with_url _ (scripted two_pages)
              (<["symbol" := PDict (<["text" := PStr "SPY"]>
                                      {["url" := PStr "/etf/SPY/"]})]>
                 (<["name" := PDict {["text" := PStr "SPDR S&P 500"]}]>
                    {["one_week_return" := PStr "0.5%"]}))
              (<["text" := PStr "SPY"]> {["url" := PStr "/etf/SPY/"]})
              "/etf/SPY/")
    as (record & Hrun & Hurl & _ & _ & Hytd & _).
  - vm_compute. reflexivity.
  - vm_compute. reflexivity.
  - right. exists {["text" := PStr "SPDR S&P 500"]}. vm_compute. reflexivity.
  - exists record. split; [exact Hrun |]. split; [exact Hurl | exact Hytd].
Defined.

Lemma _parse_etf_record_shape_witness :
  dom (normalised_row "SPY" "/etf/SPY/" "SPDR S&P 500")
  = {["symbol"; "name"; "url"; "one_week_return"; "one_year_return";
      "three_year_return"; "five_year_return"]} ∧
  ∃ u, normalised_row "SPY" "/etf/SPY/" "SPDR S&P 500" !! "url"
       = Some (PStr ("https://etfdb.com" +:+ u)).
Proof.
  apply (@_parse_etf_record_shape _ (scripted two_pages)
           (raw_row "SPY" "/etf/SPY/" "SPDR S&P 500")).
  vm_compute. reflexivity.
Defined.

Lemma _parse_etf_record_not_object_witness :
  @_parse_etf_record _ (scripted two_pages) (PDict {["symbol" := PStr "SPY"]})
  = Raise (Exn AttributeError "object has no attribute 'get'").
Proof.
  apply (@_parse_etf_record_not_object _ (scripted two_pages)).
  intros d [= <-]. exists (PStr "SPY"). split.
  - vm_compute. reflexivity.
  - intros s. discriminate.
Defined.

Lemma _prepare_etfs_list_rows_witness :
  Forall2
    (fun row record => @_parse_etf_record _ (scripted two_pages) row = Ok record)
    first_page
    [normalised_row "SPY" "/etf/SPY/" "SPDR S&P 500";
     normalised_row "QQQ" "/etf/QQQ/" "Invesco QQQ"].
Proof.
  apply (@_prepare_etfs_list_rows _ (scripted two_pages)).
  vm_compute. reflexivity.
Defined.

Lemma _scrape_page_propagates_witness :
  @_scrape_page _ (scripted not_json) 1 250 []
  = (Raise (Exn JSONDecodeError "Expecting value"), [1]) ∧
  @next _ (scripted not_json) 250 (Running 1) []
  = (Raised (Exn JSONDecodeError "Expecting value"), Done, [1]).
Proof.
  apply (@_scrape_page_propagates _ (scripted not_json) 1 250 []
           (not_json 1) [1]).
  - reflexivity.
  - reflexivity.
  - reflexivity.
Defined.

Lemma next_finished_witness :
  ∃ page, @get_etfs = Running page ∧ Running 2 = Running (page + 1).
Proof.
  apply (@next_finished _ (scripted two_pages) 250 get_etfs []
           (Yield [normalised_row "SPY" "/etf/SPY/" "SPDR S&P 500";
                   normalised_row "QQQ" "/etf/QQQ/" "Invesco QQQ"])
           (Running 2) [1]).
  vm_compute. reflexivity.
Defined.

Lemma drain_more_fuel_witness :
  @drain _ (scripted two_pages) 7 250 get_etfs []
  = (Some (Ok [normalised_row "SPY" "/etf/SPY/" "SPDR S&P 500";
               normalised_row "QQQ" "/etf/QQQ/" "Invesco QQQ"]), [1; 2]).
Proof.
  apply (@drain_more_fuel _ (scripted two_pages) 2 7).
  - vm_compute. reflexivity.
  - lia.
Defined.

Lemma drain_until_empty_page_witness :
  @drain _ (scripted two_pages) 2 250 (Running 1) []
  = (Some (Ok (concat
                 [[normalised_row "SPY" "/etf/SPY/" "SPDR S&P 500";
                   normalised_row "QQQ" "/etf/QQQ/" "Invesco QQQ"]])),
     [1; 2]).
Proof.
  apply (@drain_until_empty_page _ (scripted two_pages) 250
           [PList first_page] 1 [] [1] _ (PList []) [1; 2] 2).
  - apply serves_cons with (w' := [1]); [vm_compute; reflexivity |].
    apply serves_nil.
  - repeat constructor.
  - constructor; [vm_compute; reflexivity | constructor].
  - vm_compute. reflexivity.
  - reflexivity.
  - simpl. lia.
Defined.

Section further_witnesses.
#[local] Existing Instance sample_transport.
#[local] Existing Instance sample_utils.
#[local] Existing Instance sample_host.

Lemma resolve_ticker_idempotent_witness :
  "VTI" = upper "vti" ∧
  "https://etfdb.com/etf/VTI" = _base_url +:+ "/etf/" +:+ "VTI" ∧
  resolve_ticker "VTI" = Ok ("VTI", "https://etfdb.com/etf/VTI").
Proof.
  apply (resolve_ticker_idempotent "vti"). vm_compute. reflexivity.
Defined.

Lemma __init___requests_page_witness :
  __init__ "vti" []
  = (Ok {| _ticker := "VTI";
           _ticker_url := "https://etfdb.com/etf/VTI";
           _soup := sample_page [sample_holdings_section] |}, []).
Proof.
  assert (resolve_ticker "vti" = Ok ("VTI", "https://etfdb.com/etf/VTI"))
    as Hresolve by (vm_compute; reflexivity).
  rewrite (__init___requests_page "vti" "VTI" "https://etfdb.com/etf/VTI" []
             (Ok {| status_code := 200; reason := "OK"; text := "" |}) []
             Hresolve eq_refl).
  vm_compute. reflexivity.
Defined.

Lemma get_available_etfs_list_entries_witness :
  Forall2 (fun entry symbol => py_getitem entry "symbol" = Ok symbol)
    [PDict {["symbol" := PStr "SPY"]}; PDict {["symbol" := PStr "VTI"]}]
    [PStr "SPY"; PStr "VTI"].
Proof.
  assert (_load_available_etfs
          = Ok (PList [PDict {["symbol" := PStr "SPY"]};
                       PDict {["symbol" := PStr "VTI"]}])) as Hload
    by (vm_compute; reflexivity).
  destruct (get_available_etfs_list_entries _ Hload) as [Hlist _].
  apply Hlist. vm_compute. reflexivity.
Defined.

Lemma _trading_data_no_blank_witness :
  ∃ s, PStr "$10.0 M" = PStr s ∧ s ≠ "".
Proof.
  apply (_trading_data_no_blank sample_self sample_trading "AUM").
  - vm_compute. reflexivity.
  - vm_compute. reflexivity.
Defined.

Lemma _trading_data_raises_AttributeError_witness :
  ∃ e, _trading_data (sample_client one_block_page) = Raise e ∧
       e = Exn AttributeError "'NoneType' object has no attribute".
Proof.
  destruct (_trading_data (sample_client one_block_page)) as [d | e] eqn:Hrun;
    [vm_compute in Hrun; discriminate Hrun |].
  exists e. split; [reflexivity |].
  apply (_trading_data_raises_AttributeError (sample_client one_block_page)).
  exact Hrun.
Defined.

Lemma holdings_list_link_without_href_witness :
  holdings_list (sample_client anchor_page) = Raise (Exn KeyError "href") ∧
  _holdings (sample_client anchor_page) = Raise (Exn KeyError "href").
Proof.
  eapply (holdings_list_link_without_href (sample_client anchor_page)
            _ _ anchor_row (el "a" [("name", "top")] [txt "MSFT"])).
  - vm_compute. reflexivity.
  - vm_compute. reflexivity.
  - vm_compute. right. left.
  - vm_compute. reflexivity.
  - vm_compute. reflexivity.
Defined.

Lemma holdings_list_one_entry_per_row_witness :
  ∃ entries,
    holdings_list sample_self = Ok entries ∧ length entries = 2%nat.
Proof.
  destruct (holdings_list sample_self) as [entries | e] eqn:Hrun;
    [| vm_compute in Hrun; discriminate Hrun].
  exists entries. split; [reflexivity |].
  destruct (holdings_list_one_entry_per_row sample_self
              sample_holdings_section
              (default (txt "") (find sample_holdings_section "tbody" []))
              entries) as [_ Hlen].
  - vm_compute. reflexivity.
  - vm_compute. reflexivity.
  - exact Hrun.
  - rewrite Hlen. vm_compute. reflexivity.
Defined.

Lemma holding_entry_cells_witness :
  ∃ entry,
    holding_entry cash_row = Ok entry ∧
    entry !! "Holding" = Some (PStr "Cash").
Proof.
  destruct (holding_entry cash_row) as [entry | e] eqn:Hrun;
    [| vm_compute in Hrun; discriminate Hrun].
  exists entry. split; [reflexivity |].
  rewrite (holding_entry_cells cash_row entry 1 "Holding" Hrun eq_refl).
  vm_compute. reflexivity.
Defined.

Lemma _profile_container_entries_witness :
  ∃ container row,
    find (_soup sample_self) "div" [("class", Exactly "profile-container")]
    = Some container ∧
    row ∈ find_all container "div" [("class", Exactly "row")] ∧
    _handle_spans (find_all row "span" [])
    = Ok (Some ("Issuer", PStr "The Vanguard Group")).
Proof.
  apply (_profile_container_entries sample_self sample_profile_container).
  - vm_compute. reflexivity.
  - vm_compute. reflexivity.
Defined.

Lemma _valuation_needs_two_rows_witness :
  _valuation (sample_client one_row_valuation)
  = Raise (Exn IndexError "list index out of range").
Proof.
  eapply (_valuation_needs_two_rows (sample_client one_row_valuation)).
  - vm_compute. reflexivity.
  - vm_compute. reflexivity.
  - vm_compute. lia.
Defined.

Lemma _valuation_shape_witness :
  ∃ inner : gmap string string,
    PDict {["P/E Ratio" := PStr "20.1"]} = PDict (PStr <$> inner) ∧ inner ≠ ∅.
Proof.
  apply (_valuation_shape sample_self sample_valuation_record
           "ETF Wtd. Average").
  - vm_compute. reflexivity.
  - vm_compute. reflexivity.
Defined.

Lemma _basic_info_all_or_nothing_witness :
  ∃ basics profile valuation trading assets classification,
    ticker_body_basics sample_self = Ok basics ∧
    _profile_container sample_self = Ok profile ∧
    _valuation sample_self = Ok valuation ∧
    _trading_data sample_self = Ok trading ∧
    _asset_categories sample_self = Ok assets ∧
    _factset_classification sample_self = Ok classification ∧
    sample_info
    = delete "Analyst Report"
        (foldl update basics
           [profile; valuation; trading; assets; classification]).
Proof.
  apply (_basic_info_all_or_nothing sample_self sample_info).
  vm_compute. reflexivity.
Defined.

Lemma basic_info_row_link_witness :
  basic_info_row ∅ issuer_row
  = Ok (<["Issuer" := PStr "https://etfdb.com/issuer/vanguard/"]> ∅) ∧
  basic_info_row ∅ home_page_row
  = Ok (<["ETF Home Page" := PStr "https://etfdb.com/home/VTI"]> ∅).
Proof.
  split.
  - rewrite (basic_info_row_link ∅ issuer_row "Issuer"
               (el "span" []
                  [el "a" [("href", "/issuer/vanguard/")] [txt "Vanguard"]])
               (el "a" [("href", "/issuer/vanguard/")] [txt "Vanguard"])
               "/issuer/vanguard/");
      vm_compute; reflexivity.
  - rewrite (basic_info_row_link ∅ home_page_row "ETF Home Page"
               (el "span" []
                  [el "a" [("href", "https://etfdb.com/home/VTI")]
                     [txt "Home page"]])
               (el "a" [("href", "https://etfdb.com/home/VTI")]
                  [txt "Home page"])
               "https://etfdb.com/home/VTI");
      vm_compute; reflexivity.
Defined.

Lemma basic_info_row_text_witness :
  basic_info_row ∅ category_row
  = Ok (<["Category" := PStr "Large Cap Blend"]> ∅).
Proof.
  rewrite (basic_info_row_text ∅ category_row "Category"
             (el "span" [] [txt " Large Cap Blend "])).
  - vm_compute. reflexivity.
  - vm_compute. reflexivity.
  - vm_compute. reflexivity.
  - left. vm_compute. reflexivity.
Defined.

Lemma ticker_body_basics_rows_witness :
  ∃ body top,
    find (_soup sample_self) "div" [("id", Exactly "etf-ticker-body")]
    = Some body ∧
    find body "div" [("class", Exactly "row")] = Some top ∧
    ∀ row, row ∈ find_all top "div" [("class", Exactly "row")] →
           (∃ key, _handle_nth_child row 1 = Ok key) ∧
           is_Some (select_one_nth_child row 2).
Proof.
  apply (ticker_body_basics_rows sample_self sample_basics).
  vm_compute. reflexivity.
Defined.

Lemma one_block_breaks_holdings_and_profile_witness :
  _holdings (sample_client one_block_profile_page)
  = Raise (Exn IndexError "list index out of range") ∧
  _basic_info (sample_client one_block_profile_page)
  = Raise (Exn IndexError "list index out of range").
Proof.
  destruct (one_block_breaks_holdings_and_profile
              (sample_client one_block_profile_page) one_block_body
              (el "div" [("class", "ticker-assets")]
                 [pair_row "div" "span" "Asset Class" [txt "Equity"]]))
    as [Hholdings Hprofile].
  - vm_compute. reflexivity.
  - vm_compute. reflexivity.
  - split.
    + apply (Hholdings [] ∅); vm_compute; reflexivity.
    + apply (Hprofile
               (list_to_map
                  [("Symbol", PStr "VTI");
                   ("Url", PStr "https://etfdb.com/etf/VTI");
                   ("Category", PStr "Large Cap Blend")])
               sample_profile_container sample_valuation_record
               sample_trading); vm_compute; reflexivity.
Defined.

Lemma _technicals_item_not_two_lines_witness :
  _technicals (sample_client (sample_technicals [bare_item]))
  = Raise (Exn ValueError
             "dictionary update sequence element has wrong length").
Proof.
  eapply (_technicals_item_not_two_lines
            (sample_client (sample_technicals [bare_item])) _
            (el "ul" [("class", "list-unstyled")] [bare_item]) bare_item).
  - vm_compute. reflexivity.
  - vm_compute. right. left.
  - vm_compute. left.
  - vm_compute. lia.
Defined.

Lemma _technicals_entries_witness :
  ∃ block section li value,
    find (_soup (sample_client (sample_technicals [rsi_item]))) "div"
      [("id", Exactly "technicals-collapse")] = Some block ∧
    section ∈ find_all block "ul" [("class", Exactly "list-unstyled")] ∧
    li ∈ find_all section "li" [] ∧
    str_split (strip (get_text li)) (String "010" EmptyString)
    = ["RSI 10 Day"; value] ∧
    PStr "61" = PStr value.
Proof.
  apply (_technicals_entries (sample_client (sample_technicals [rsi_item]))
           (list_to_map [("20 Day MA", PStr "$227.10");
                         ("RSI 10 Day", PStr "61")])).
  - vm_compute. reflexivity.
  - vm_compute. reflexivity.
Defined.

Lemma _volatility_row_not_two_parts_witness :
  _volatility (sample_client (sample_technicals []))
  = Raise (Exn ValueError
             "dictionary update sequence element has wrong length").
Proof.
  eapply (_volatility_row_not_two_parts
            (sample_client (sample_technicals [])) _
            (el "div" [("class", "row relative-metric")]
               [txt "20 Day Volatility"])).
  - vm_compute. reflexivity.
  - vm_compute. right. left.
  - vm_compute. lia.
Defined.

End further_witnesses.
